(** * mass_formula.py: a client of the ChemCalc formula search

    A shallow embedding of [src/mass_formula.py] and the statements of its
    specification that can be settled on it.

    The file has two parts.  Part I holds the definitions: the Python values
    the program passes around, the small fragment of pandas and of requests
    it calls, and then the program itself, function by function, under the
    names the source uses.  Part II holds the lemmas. *)

From Stdlib Require Import List String Ascii ZArith Bool Lia Floats Uint63.
Import ListNotations.
Local Open Scope string_scope.
Local Open Scope list_scope.
Local Open Scope Z_scope.
Set Warnings "-register-all".

(* ================================================================== *)
(** * Part I: definitions *)
(* ================================================================== *)

(** ** Python values, dictionaries and exceptions *)

Module Py.

(** The objects the program handles: what [json()] can return, and what a
    caller can pass to [formulas].  A [float] is a binary64 number, as in
    Python. *)
Inductive value : Type :=
| VNone
| VBool (b : bool)
| VInt (z : Z)
| VFloat (f : float)
| VStr (s : string)
| VList (items : list value)
| VDict (entries : list (string * value)).

(** A [dict] with string keys.  Python dictionaries keep insertion order and
    pandas derives column order from it, hence an association list; every
    operation below keeps the keys distinct. *)
Definition dict : Type := list (string * value).

Inductive exn : Type :=
| KeyError (key : string)
| TypeError (msg : string)
| AttributeError (msg : string)
| ValueError (msg : string)
| ZeroDivisionError
| InvalidSchema (url : string)
| RequestException (repr : string)
| OutsideModel (what : string).

Inductive result (A : Type) : Type :=
| Ok (a : A)
| Raise (e : exn).
Arguments Ok {A} a.
Arguments Raise {A} e.

Definition rbind {A B : Type} (r : result A) (k : A -> result B) : result B :=
  match r with
  | Ok a => k a
  | Raise e => Raise e
  end.

(** [d.get(k)] *)
Fixpoint dict_get (k : string) (d : dict) : option value :=
  match d with
  | [] => None
  | (k', v) :: d' => if String.eqb k k' then Some v else dict_get k d'
  end.

(** [d[k]] *)
Definition getitem (k : string) (d : dict) : result value :=
  match dict_get k d with
  | Some v => Ok v
  | None => Raise (KeyError k)
  end.

(** [d[k] = v]: an existing key keeps its place, a new one goes last. *)
Fixpoint dict_set (k : string) (v : value) (d : dict) : dict :=
  match d with
  | [] => [(k, v)]
  | (k', v') :: d' =>
      if String.eqb k k' then (k, v) :: d' else (k', v') :: dict_set k v d'
  end.

Definition dict_remove (k : string) (d : dict) : dict :=
  filter (fun kv => negb (String.eqb k (fst kv))) d.

(** [del d[k]] *)
Definition delitem (k : string) (d : dict) : result dict :=
  match dict_get k d with
  | Some _ => Ok (dict_remove k d)
  | None => Raise (KeyError k)
  end.

(** [{**d, **e}], and [d.update(e)] *)
Definition dict_update (d e : dict) : dict :=
  fold_left (fun acc kv => dict_set (fst kv) (snd kv) acc) e d.

Definition keys (d : dict) : list string := map fst d.
Definition values (d : dict) : list value := map snd d.

(** [v[k]] for a string key [k]: only a dictionary accepts it. *)
Definition subscript (v : value) (k : string) : result value :=
  match v with
  | VDict d => getitem k d
  | VList _ => Raise (TypeError "list indices must be integers or slices, not str")
  | VStr _ => Raise (TypeError "string indices must be integers, not 'str'")
  | _ => Raise (TypeError "object is not subscriptable")
  end.

(** [isinstance(v, (dict, list))] *)
Definition is_container (v : value) : bool :=
  match v with
  | VList _ | VDict _ => true
  | _ => false
  end.

(** [bool(v)] *)
Definition truthy (v : value) : bool :=
  match v with
  | VNone => false
  | VBool b => b
  | VInt z => negb (z =? 0)
  | VFloat f => negb (PrimFloat.eqb f 0%float)
  | VStr s => negb (String.eqb s "")
  | VList l => match l with [] => false | _ => true end
  | VDict d => match d with [] => false | _ => true end
  end.

(** [iter(v)], as the items it yields; [None] when [v] is not iterable and
    [iter] raises [TypeError]. *)
Definition iter (v : value) : option (list value) :=
  match v with
  | VList l => Some l
  | VStr s => Some (map (fun c => VStr (String c EmptyString)) (list_ascii_of_string s))
  | VDict d => Some (map (fun kv => VStr (fst kv)) d)
  | _ => None
  end.

Definition ascii_lower (c : ascii) : ascii :=
  let n := nat_of_ascii c in
  if andb (Nat.leb 65 n) (Nat.leb n 90) then ascii_of_nat (n + 32) else c.

(** [s.lower()] on ASCII text *)
Fixpoint lower (s : string) : string :=
  match s with
  | EmptyString => EmptyString
  | String c s' => String (ascii_lower c) (lower s')
  end.

(** [s.startswith(p)] *)
Definition startswith (s p : string) : bool := String.prefix p s.

End Py.

Import Py.

(** ** The fragment of pandas the program calls

    A frame is its column labels and its rows, top to bottom.  A row maps a
    label to the object in that cell; a label the row does not map is a
    missing cell (pandas shows it as NaN).  Row labels (the index) are not
    modelled: nothing the program does reads them.

    Calls whose behaviour depends on more of pandas than is written out here
    end in [OutsideModel]; no lemma draws a conclusion from that outcome. *)

Module Pandas.

Definition row : Type := dict.

Record DataFrame : Type := mkFrame { columns : list string; rows : list row }.

Definition has_label (c : string) (cols : list string) : bool :=
  existsb (String.eqb c) cols.

(** Labels of [a], then those of [b] that [a] lacks, in order of appearance. *)
Definition union_columns (a b : list string) : list string :=
  fold_left (fun acc c => if has_label c acc then acc else acc ++ [c]) b a.

(** [pd.DataFrame(columns=cols)] *)
Definition empty (cols : list string) : DataFrame := mkFrame cols [].

(** What pandas broadcasts: anything that is neither list-like nor a dict. *)
Definition is_scalar (v : value) : bool := negb (is_container v).

Fixpoint as_records (l : list value) : option (list dict) :=
  match l with
  | [] => Some []
  | VDict d :: l' => option_map (cons d) (as_records l')
  | _ :: _ => None
  end.

Definition of_records (rs : list dict) : DataFrame :=
  mkFrame (fold_left (fun acc r => union_columns acc (keys r)) rs []) rs.

(** [pd.DataFrame(l)] for a list [l]: one row per dictionary of [l]. *)
Definition DataFrame_of_list (l : list value) : result DataFrame :=
  match as_records l with
  | Some rs => Ok (of_records rs)
  | None => Raise (OutsideModel "DataFrame from a list that holds a non-dict")
  end.

(** [pd.DataFrame(d)] for a dictionary [d], column label to column data.
    With no column data to take the row labels from, pandas refuses. *)
Definition DataFrame_of_dict (d : dict) : result DataFrame :=
  match d with
  | [] => Ok (empty [])
  | _ :: _ =>
      if forallb is_scalar (values d)
      then Raise (ValueError "If using all scalar values, you must pass an index")
      else Raise (OutsideModel "DataFrame from a dict with list or dict values")
  end.

(** [pd.DataFrame.from_dict(data)], default [orient]: it hands [data] to the
    constructor. *)
Definition from_dict (data : value) : result DataFrame :=
  match data with
  | VList l => DataFrame_of_list l
  | VDict d => DataFrame_of_dict d
  | _ => Raise (OutsideModel "DataFrame from a scalar")
  end.

Definition append (a b : DataFrame) : DataFrame :=
  mkFrame (union_columns (columns a) (columns b)) (rows a ++ rows b).

(** [pd.concat(objs)] *)
Definition concat (objs : list DataFrame) : result DataFrame :=
  match objs with
  | [] => Raise (ValueError "No objects to concatenate")
  | df :: rest => Ok (fold_left append rest df)
  end.

Definition assign (c : string) (v : value) (df : DataFrame) : DataFrame :=
  mkFrame (union_columns (columns df) [c]) (map (dict_set c v) (rows df)).

(** [df[c] = v]: a scalar fills the whole column. *)
Definition setitem (c : string) (v : value) (df : DataFrame) : result DataFrame :=
  if is_scalar v then Ok (assign c v df)
  else Raise (OutsideModel "column assignment of a list or dict").

Definition assign_each (kvs : list (string * value)) (df : DataFrame) : DataFrame :=
  fold_left (fun acc kv => assign (fst kv) (snd kv) acc) kvs df.

(** [df[cols] = vals] for a list of labels and a list of as many scalars:
    column [cols[i]] is filled with [vals[i]]. *)
Definition setitem_list (cols : list string) (vals : list value) (df : DataFrame)
  : result DataFrame :=
  if negb (Nat.eqb (List.length cols) (List.length vals))
  then Raise (ValueError "Columns must be same length as key")
  else if forallb is_scalar vals then Ok (assign_each (combine cols vals) df)
  else Raise (OutsideModel "column assignment of a list or dict").

End Pandas.

(** ** The fragment of requests the program calls *)

Module Requests.

Inductive count : Type :=
| Unset
| Off
| Times (n : Z).

(** [urllib3.util.Retry], the fields the program or requests sets. *)
Record Retry : Type := mkRetry {
  total : count;
  read : count;
  backoff_factor : Z;
  allowed_methods : option (list string);
  status_forcelist : list Z
}.

Definition DEFAULT_ALLOWED_METHODS : list string :=
  ["HEAD"; "GET"; "PUT"; "DELETE"; "OPTIONS"; "TRACE"].

Record HTTPAdapter : Type := mkAdapter { max_retries : Retry }.

(** [HTTPAdapter()]: [max_retries] defaults to [Retry(0, read=False)]. *)
Definition default_adapter : HTTPAdapter :=
  mkAdapter (mkRetry (Times 0) Off 0 (Some DEFAULT_ALLOWED_METHODS) []).

Record Session : Type := mkSession { adapters : list (string * HTTPAdapter) }.

Fixpoint adapters_set (prefix : string) (a : HTTPAdapter)
  (l : list (string * HTTPAdapter)) : list (string * HTTPAdapter) :=
  match l with
  | [] => [(prefix, a)]
  | (p, b) :: l' =>
      if String.eqb prefix p then (prefix, a) :: l'
      else (p, b) :: adapters_set prefix a l'
  end.

(** [Session.mount]: register the adapter, then move every shorter prefix
    behind it, so that lookup meets longer prefixes first. *)
Definition mount (prefix : string) (a : HTTPAdapter) (s : Session) : Session :=
  let l := adapters_set prefix a (adapters s) in
  let shorter (pa : string * HTTPAdapter) :=
    Nat.ltb (String.length (fst pa)) (String.length prefix) in
  mkSession (filter (fun pa => negb (shorter pa)) l ++ filter shorter l).

(** [requests.Session()] *)
Definition new_session : Session :=
  mount "http://" default_adapter (mount "https://" default_adapter (mkSession [])).

(** [Session.get_adapter]: the first mounted prefix the URL starts with. *)
Definition get_adapter (s : Session) (url : string) : option HTTPAdapter :=
  option_map snd
    (find (fun pa => startswith (lower url) (lower (fst pa))) (adapters s)).

(** One call of [Session.get], as the network sees it. *)
Record request : Type := mkRequest {
  req_url : string;
  req_params : dict;
  req_timeout : Z;
  req_adapter : HTTPAdapter
}.

(** How a call of [session.get(...).json()] can end. *)
Inductive reply : Type :=
| JsonBody (body : value)
| JSONDecodeError (repr : string)
| RetryError (repr : string)
| ConnectionError (repr : string)
| OtherError (repr : string).

End Requests.

(** ** The program: [mass_formula.py] *)

Module MassFormula.
Import Pandas Requests.

(** *** Effects

    [formulas] and [get_formulas] call the network and may raise.  The state
    is the list of calls of [Session.get] made so far, oldest first; what a
    call comes back with is fixed by [network], a parameter of the program. *)

Definition world : Type := list request.

Definition M (A : Type) : Type := world -> result A * world.

Definition ret {A : Type} (a : A) : M A := fun w => (Ok a, w).

Definition raise {A : Type} (e : exn) : M A := fun w => (Raise e, w).

Definition lift {A : Type} (r : result A) : M A := fun w => (r, w).

Definition bind {A B : Type} (m : M A) (k : A -> M B) : M B :=
  fun w =>
    match m w with
    | (Ok a, w') => k a w'
    | (Raise e, w') => (Raise e, w')
    end.

Declare Scope result_scope.
Delimit Scope result_scope with res.
Declare Scope effect_scope.
Delimit Scope effect_scope with eff.

Notation "x <- r ;; k" := (rbind r (fun x => k))
  (at level 100, r at next level, right associativity) : result_scope.
Notation "x <- m ;; k" := (bind m (fun x => k))
  (at level 100, m at next level, right associativity) : effect_scope.

(** [v[k] = x] for a string key [k]. *)
Definition store (v : value) (k : string) (x : value) : result value :=
  match v with
  | VDict d => Ok (VDict (dict_set k x d))
  | VList _ => Raise (TypeError "list indices must be integers or slices, not str")
  | _ => Raise (TypeError "object does not support item assignment")
  end.

(** *** class ChemCalcFormulaFinder *)

Definition url : string := "https://www.chemcalc.org/chemcalc/em".

Definition df_columns : list string :=
  ["em"; "mf"; "unsat"; "jcampURL"; "error"; "ppm"; "info"; "minMass"; "mfRange";
   "numberOfResultsOnly"; "typedResult"; "minUnsaturation"; "maxUnsaturation";
   "useUnsaturation"; "jcampBaseURL"; "monoisotopicMass"; "jcampLink";
   "integerUnsaturation"; "maxMass"; "referenceVersion"; "massRange"; "charge";
   "number_results"; "search_number"; "accuracy"; "error_description"].

Record ChemCalcFormulaFinder : Type := mkFinder {
  _typed_result : bool;
  _use_unsaturation : bool;
  _min_unsaturation : Z;
  _max_unsaturation : Z;
  _integer_unsaturation : bool;
  _jcamp_link : bool;
  _session : Session
}.

(** The adapter [__init__] builds:
    [HTTPAdapter(max_retries=Retry(total=4, backoff_factor=1,
    allowed_methods=None, status_forcelist=[429, 500, 502, 503, 504]))]. *)
Definition retry_adapter : HTTPAdapter :=
  mkAdapter (mkRetry (Times 4) Unset 1 None [429; 500; 502; 503; 504]).

Definition __init__ (typed_result use_unsaturation : bool)
  (min_unsaturation max_unsaturation : Z) (integer_unsaturation jcamp_link : bool)
  : ChemCalcFormulaFinder :=
  let session := new_session in
  let adapter := retry_adapter in
  mkFinder typed_result use_unsaturation min_unsaturation max_unsaturation
    integer_unsaturation jcamp_link (mount "http://" adapter session).

(** [ChemCalcFormulaFinder()], every argument at its default. *)
Definition default_finder : ChemCalcFormulaFinder :=
  __init__ false false 0 50 false true.

Definition results_meta_data (json : value) : result dict :=
  match json with
  | VDict items =>
      let meta := filter (fun kv => negb (is_container (snd kv))) items in
      (options <- subscript json "options" ;;
       match options with
       | VDict options =>
           error <- subscript json "error" ;;
           match error with
           | VDict error =>
               Ok (dict_update (dict_update (dict_update [] options) meta) error)
           | _ => Raise (TypeError "object is not a mapping")
           end
       | _ => Raise (TypeError "object is not a mapping")
       end)%res
  | _ => Raise (AttributeError "object has no attribute 'items'")
  end.

(** [formulas_json['error']['error_description']] *)
Definition error_description (formulas_json : value) : result value :=
  (error <- subscript formulas_json "error" ;;
   subscript error "error_description")%res.

(** [del formulas_json['error']['fatal']], as the update it makes to the
    object [formulas_json] names. *)
Definition del_error_fatal (formulas_json : value) : result value :=
  (error <- subscript formulas_json "error" ;;
   match error with
   | VDict error =>
       error' <- delitem "fatal" error ;;
       store formulas_json "error" (VDict error')
   | _ => Raise (TypeError "object does not support item deletion")
   end)%res.

(** The part of [json_to_dataframe] after the error branch; it only reads
    [formulas_json]. *)
Definition json_to_dataframe_results (df : DataFrame) (formulas_json : value)
  : result DataFrame :=
  (meta_data <- results_meta_data formulas_json ;;
   results <- subscript formulas_json "results" ;;
   if negb (truthy results) then
     m <- DataFrame_of_dict meta_data ;;
     concat [df; m]
   else
     r <- from_dict results ;;
     df <- concat [df; r] ;;
     setitem_list (keys meta_data) (values meta_data) df)%res.

(** [json_to_dataframe] deletes a key of the dictionary it is given.  The
    caller holds the only reference to that object, so the function is
    modelled as returning, next to its outcome, the object as the caller
    finds it afterwards. *)
Definition json_to_dataframe (formulas_json : value) : result DataFrame * value :=
  let df := Pandas.empty df_columns in
  match error_description formulas_json with
  | Raise e => (Raise e, formulas_json)
  | Ok VNone => (json_to_dataframe_results df formulas_json, formulas_json)
  | Ok _ =>
      match del_error_fatal formulas_json with
      | Raise e => (Raise e, formulas_json)
      | Ok formulas_json' =>
          ((error <- subscript formulas_json' "error" ;;
            e <- DataFrame_of_list [error] ;;
            concat [df; e])%res,
           formulas_json')
      end
  end.

(** [formulas_json['error'].get('fatal_error', False)], as a condition. *)
Definition fatal_error_flag (formulas_json : value) : result bool :=
  (error <- subscript formulas_json "error" ;;
   match error with
   | VDict error =>
       Ok (truthy (match dict_get "fatal_error" error with
                   | Some v => v
                   | None => VBool false
                   end))
   | _ => Raise (AttributeError "object has no attribute 'get'")
   end)%res.

(** The dictionary [get_formulas] returns after a caught exception. *)
Definition error_response (fatal_error : bool) (error_description : string)
  (mass accuracy mf_range charge : value) : value :=
  VDict [("error",
          VDict [("fatal", VBool fatal_error);
                 ("error_description", VStr error_description);
                 ("em", mass);
                 ("accuracy", accuracy);
                 ("mfRange", mf_range);
                 ("charge", charge)])].

Section Program.

(** What a call of [Session.get] comes back with, given the calls made
    before it. *)
Variable network : world -> request -> reply.

(** [format(v, '')], which the f-string of [get_formulas] applies to its
    fields. *)
Variable str : value -> string.

(** [session.get(url, params=params, timeout=timeout).json()] *)
Definition session_get_json (s : Session) (url : string) (params : dict)
  (timeout : Z) : M reply :=
  fun w =>
    match get_adapter s url with
    | None => (Raise (InvalidSchema url), w)
    | Some a =>
        let r := mkRequest url params timeout a in
        (Ok (network w r), w ++ [r])
    end.

Definition get_formulas (self : ChemCalcFormulaFinder)
  (mass accuracy mf_range charge : value) : M value :=
  let mf_range := VStr (str mf_range ++ "(" ++ str charge ++ ")")%string in
  let params :=
    [("mfRange", mf_range);
     ("numberOfResultsOnly", VBool false);
     ("typedResult", VBool (_typed_result self));
     ("useUnsaturation", VBool (_use_unsaturation self));
     ("minUnsaturation", VInt (_min_unsaturation self));
     ("maxUnsaturation", VInt (_max_unsaturation self));
     ("jcampBaseURL", VStr "http://www.chemcalc.org/service/jcamp/");
     ("monoisotopicMass", mass);
     ("jcampLink", VBool (_jcamp_link self));
     ("integerUnsaturation", VBool (_integer_unsaturation self));
     ("referenceVersion", VStr "2013");
     ("massRange", accuracy)] in
  (reply <- session_get_json (_session self) url params 5 ;;
   match reply with
   | JsonBody results =>
       lift (store results "error" (VDict [("error_description", VNone)]))
   | RetryError repr | ConnectionError repr =>
       ret (error_response true repr mass accuracy mf_range charge)
   | JSONDecodeError repr =>
       ret (error_response false repr mass accuracy mf_range charge)
   | OtherError repr => raise (RequestException repr)
   end)%eff.

(** The body of the [for] loop of [formulas]: the tables collected so far
    with the new one appended, and whether the loop breaks. *)
Definition formulas_step (self : ChemCalcFormulaFinder) (index : Z)
  (mz accuracy mf_range charge : value) (results : list DataFrame)
  : M (list DataFrame * bool) :=
  (formulas_json <- get_formulas self mz accuracy mf_range charge ;;
   let (outcome, formulas_json) := json_to_dataframe formulas_json in
   result <- lift outcome ;;
   result <- lift (setitem "search_number" (VInt index) result) ;;
   let results := results ++ [result] in
   stop <- lift (fatal_error_flag formulas_json) ;;
   ret (results, stop))%eff.

Definition zip_shorter (i : nat) : exn :=
  ValueError
    match i with
    | 2%nat => "zip() argument 2 is shorter than argument 1"
    | 3%nat => "zip() argument 3 is shorter than arguments 1-2"
    | _ => "zip() argument 4 is shorter than arguments 1-3"
    end.

Definition zip_longer (i : nat) : exn :=
  ValueError
    match i with
    | 2%nat => "zip() argument 2 is longer than argument 1"
    | 3%nat => "zip() argument 3 is longer than arguments 1-2"
    | _ => "zip() argument 4 is longer than arguments 1-3"
    end.

(** [for index, (mz, accuracy, mf_range, charge) in enumerate(params)], with
    [params] the [zip] of four iterators.  [zip] is lazy: it draws one item
    from each iterator, left to right, when the loop asks for the next
    tuple, and with [strict=True] it compares lengths only then, when one of
    the iterators runs out. *)
Fixpoint formulas_loop (self : ChemCalcFormulaFinder) (strict : bool) (index : Z)
  (mass accuracy mf_range charge : list value) (results : list DataFrame)
  : M (list DataFrame) :=
  match mass with
  | [] =>
      if strict then
        match accuracy, mf_range, charge with
        | _ :: _, _, _ => raise (zip_longer 2)
        | [], _ :: _, _ => raise (zip_longer 3)
        | [], [], _ :: _ => raise (zip_longer 4)
        | [], [], [] => ret results
        end
      else ret results
  | mz :: mass' =>
      match accuracy, mf_range, charge with
      | [], _, _ => if strict then raise (zip_shorter 2) else ret results
      | _ :: _, [], _ => if strict then raise (zip_shorter 3) else ret results
      | _ :: _, _ :: _, [] => if strict then raise (zip_shorter 4) else ret results
      | accuracy0 :: accuracy', mf_range0 :: mf_range', charge0 :: charge' =>
          (step <- formulas_step self index mz accuracy0 mf_range0 charge0 results ;;
           let (results, stop) := step in
           if stop then ret results
           else formulas_loop self strict (index + 1)
                  mass' accuracy' mf_range' charge' results)%eff
      end
  end.

Definition formulas (self : ChemCalcFormulaFinder)
  (mass accuracy mf_range charge : value) : M DataFrame :=
  (results <-
     match iter mass, iter accuracy, iter mf_range, iter charge with
     | Some ms, Some accs, Some mfs, Some chs =>
         formulas_loop self true 0 ms accs mfs chs []
     | _, _, _, _ =>
         formulas_loop self false 0 [mass] [accuracy] [mf_range] [charge] []
     end ;;
   lift (concat results))%eff.

End Program.

(** *** Module-level functions

    [ppm_error] and [ppm_to_mass] are written with [/] and [*] and the float
    literal [1e6]; Python dispatches the two operators on the numbers it is
    given.  [Number] is that interface.  [binary64] is the instance Python
    runs: the literal [1e6] is a float, so every result is a float, and on
    [int] arguments small enough to be floats [/] gives the same float as
    on the floats of the same value. *)

Class Number (T : Type) : Type := {
  truediv : T -> T -> result T;
  mul : T -> T -> T;
  literal_1e6 : T
}.

Definition ppm_error {T : Type} `{Number T} (mass mass_error : T) : result T :=
  (q <- truediv mass_error mass ;; Ok (mul q literal_1e6))%res.

Definition ppm_to_mass {T : Type} `{Number T} (mass ppm_error : T) : result T :=
  truediv (mul mass ppm_error) literal_1e6.

#[export] Instance binary64 : Number float := {
  truediv a b :=
    if PrimFloat.eqb b 0%float then Raise ZeroDivisionError
    else Ok (PrimFloat.div a b);
  mul := PrimFloat.mul;
  literal_1e6 := 1e6%float
}.

End MassFormula.

Import Pandas Requests MassFormula.

(** ** Vocabulary of the statements *)

(** The [search_number] cell of a row, when it holds an integer. *)
Definition search_number_of (r : row) : option Z :=
  match dict_get "search_number" r with
  | Some (VInt i) => Some i
  | _ => None
  end.

(** The distinct values of a list, in order of first appearance. *)
Fixpoint first_appearances (l : list Z) : list Z :=
  match l with
  | [] => []
  | x :: l' => x :: filter (fun y => negb (y =? x)) (first_appearances l')
  end.

Definition min4 (a b c d : nat) : nat := Nat.min (Nat.min a b) (Nat.min c d).

Definition same_lengths (ms accs mfs chs : list value) : Prop :=
  List.length accs = List.length ms /\
  List.length mfs = List.length ms /\
  List.length chs = List.length ms.

(** The number of queries of a call of [formulas] that [zip] accepts: the
    common length of four iterables, or one query when [zip] raises
    [TypeError] and the arguments are wrapped. *)
Definition batch_size (mass accuracy mf_range charge : value) (n : nat) : Prop :=
  match iter mass, iter accuracy, iter mf_range, iter charge with
  | Some ms, Some accs, Some mfs, Some chs =>
      same_lengths ms accs mfs chs /\ n = List.length ms
  | _, _, _, _ => n = 1%nat
  end.

(** One tuple of the loop: [(mz, accuracy, mf_range, charge)]. *)
Definition query : Type := (value * (value * (value * value)))%type.

Definition zip4 (ms accs mfs chs : list value) : list query :=
  combine ms (combine accs (combine mfs chs)).

(** The tuples a call of [formulas] pairs, in order. *)
Definition queries (mass accuracy mf_range charge : value) : list query :=
  match iter mass, iter accuracy, iter mf_range, iter charge with
  | Some ms, Some accs, Some mfs, Some chs => zip4 ms accs mfs chs
  | _, _, _, _ => [(mass, (accuracy, (mf_range, charge)))]
  end.

(** [blocks] are the tables of the queries [qs], one after the other from
    the world [w] on: block [i] holds the rows [json_to_dataframe] made of
    the response [get_formulas] returned for query [i], with [index + i]
    stored in their [search_number] column. *)
Fixpoint answered_in_order (network : world -> request -> reply)
  (str : value -> string) (self : ChemCalcFormulaFinder) (index : Z)
  (qs : list query) (w : world) (blocks : list (list row)) (w' : world) : Prop :=
  match qs, blocks with
  | [], [] => w' = w
  | (mz, (accuracy, (mf_range, charge))) :: qs', b :: blocks' =>
      exists formulas_json w1 df formulas_json',
        get_formulas network str self mz accuracy mf_range charge w
        = (Ok formulas_json, w1) /\
        json_to_dataframe formulas_json = (Ok df, formulas_json') /\
        b = rows (assign "search_number" (VInt index) df) /\
        answered_in_order network str self (index + 1) qs' w1 blocks' w'
  | _, _ => False
  end.

(** A row list cut into consecutive blocks, block [i] non-empty and every
    row of it tagged [index + i]. *)
Fixpoint tagged_blocks (index : Z) (blocks : list (list row)) : Prop :=
  match blocks with
  | [] => True
  | b :: blocks' =>
      b <> [] /\
      (forall r, In r b -> dict_get "search_number" r = Some (VInt index)) /\
      tagged_blocks (index + 1) blocks'
  end.

Definition is_zip_length_error (e : exn) : Prop :=
  exists i, e = zip_shorter i \/ e = zip_longer i.

(** [ppm_to_mass(mass, ppm_error(mass, x))] *)
Definition round_trip {T : Type} `{Number T} (mass x : T) : result T :=
  (e <- ppm_error mass x ;; ppm_to_mass mass e)%res.

(** [float(z)], for a whole number below [2^53]. *)
Definition float_of_Z (z : Z) : float := PrimFloat.of_uint63 (Uint63.of_Z z).





(** ** Sample inputs *)

Module Sample.

Definition str (v : value) : string :=
  match v with
  | VStr s => s
  | _ => ""
  end.

(** A response body with two candidate formulas. *)
Definition two_candidates : value :=
  VDict [("results",
          VList [VDict [("em", VFloat 100); ("mf", VStr "C7H16"); ("unsat", VInt 0)];
                 VDict [("em", VFloat 100); ("mf", VStr "C6H12O"); ("unsat", VInt 1)]]);
         ("options", VDict [("mfRange", VStr "C0-10H0-20O0-2(+)");
                            ("massRange", VFloat 1)]);
         ("numberResults", VInt 2)].

(** A response body with no candidate formula. *)
Definition no_candidate : value :=
  VDict [("results", VList []);
         ("options", VDict [("mfRange", VStr "C0-10H0-20O0-2(+)");
                            ("massRange", VFloat 1)]);
         ("numberResults", VInt 0)].

Definition no_error : value := VDict [("error_description", VNone)].

(** [no_candidate] as [get_formulas] returns it. *)
Definition no_candidate_response : value :=
  match store no_candidate "error" no_error with
  | Ok v => v
  | Raise _ => VNone
  end.

(** [two_candidates] as [get_formulas] returns it. *)
Definition two_candidates_response : value :=
  match store two_candidates "error" no_error with
  | Ok v => v
  | Raise _ => VNone
  end.

(** A network on which every call succeeds. *)
Definition always_answers (w : world) (r : request) : reply :=
  JsonBody two_candidates.

(** A network on which the second call ends in [ConnectionError]. *)
Definition second_call_fails (w : world) (r : request) : reply :=
  if Nat.eqb (List.length w) 1 then ConnectionError "ConnectionError(MaxRetryError())"
  else JsonBody two_candidates.

Definition masses3 : value := VList [VFloat 100; VFloat 150; VFloat 200].
Definition accuracies3 : value := VList [VFloat 1; VFloat 1; VFloat 1].
Definition accuracies2 : value := VList [VFloat 1; VFloat 1].
Definition ranges3 : value :=
  VList [VStr "C0-10H0-20O0-2"; VStr "C0-10H0-20O0-2"; VStr "C0-10H0-20O0-2"].
Definition charges3 : value := VList [VStr "+"; VStr "+"; VStr "+"].

(** The response [get_formulas] builds after [ConnectionError]. *)
Definition fatal_response : value :=
  error_response true "ConnectionError(MaxRetryError())"
    (VFloat 150) (VFloat 1) (VStr "C0-10H0-20O0-2(+)") (VStr "+").

End Sample.

(** ** Vocabulary of the further statements *)

(** The frame starts with the columns [cols], in that order. *)
Definition starts_with_columns (cols : list string) (df : DataFrame) : Prop :=
  exists extra,
    columns df = cols ++ extra /\ forall c, In c extra -> ~ In c cols.

(** What the requests of one finder have in common: the endpoint, the
    timeout, the adapter the session picks for the endpoint, the twelve
    parameter names, and the values [get_formulas] takes from the finder or
    writes as literals. *)
Definition carries_configuration (self : ChemCalcFormulaFinder) (r : request)
  : Prop :=
  req_url r = url /\
  req_timeout r = 5 /\
  get_adapter (_session self) url = Some (req_adapter r) /\
  keys (req_params r)
  = ["mfRange"; "numberOfResultsOnly"; "typedResult"; "useUnsaturation";
     "minUnsaturation"; "maxUnsaturation"; "jcampBaseURL"; "monoisotopicMass";
     "jcampLink"; "integerUnsaturation"; "referenceVersion"; "massRange"] /\
  dict_get "numberOfResultsOnly" (req_params r) = Some (VBool false) /\
  dict_get "typedResult" (req_params r) = Some (VBool (_typed_result self)) /\
  dict_get "useUnsaturation" (req_params r)
  = Some (VBool (_use_unsaturation self)) /\
  dict_get "minUnsaturation" (req_params r)
  = Some (VInt (_min_unsaturation self)) /\
  dict_get "maxUnsaturation" (req_params r)
  = Some (VInt (_max_unsaturation self)) /\
  dict_get "jcampBaseURL" (req_params r)
  = Some (VStr "http://www.chemcalc.org/service/jcamp/") /\
  dict_get "jcampLink" (req_params r) = Some (VBool (_jcamp_link self)) /\
  dict_get "integerUnsaturation" (req_params r)
  = Some (VBool (_integer_unsaturation self)) /\
  dict_get "referenceVersion" (req_params r) = Some (VStr "2013").

(** Further sample inputs. *)
Module MoreSamples.

(** A network whose first call finds two candidates and whose later calls
    find none. *)
Definition later_calls_find_nothing (w : world) (r : request) : reply :=
  match w with
  | [] => JsonBody Sample.two_candidates
  | _ :: _ => JsonBody Sample.no_candidate
  end.

(** A network whose first call succeeds and whose later calls time out
    while reading, an exception [get_formulas] does not catch. *)
Definition later_calls_time_out (w : world) (r : request) : reply :=
  match w with
  | [] => JsonBody Sample.two_candidates
  | _ :: _ => OtherError "ReadTimeout()"
  end.

(** A body that brings an [error] entry and an [error_description] of its
    own. *)
Definition body_with_own_error : value :=
  VDict [("error", VStr "mfRange could not be parsed");
         ("error_description", VStr "server side");
         ("results", VList [VDict [("em", VFloat 100); ("mf", VStr "C7H16")]]);
         ("options", VDict [("mfRange", VStr "C0-10(+)");
                            ("error_description", VStr "echoed")])].

Definition answers_with_own_error (w : world) (r : request) : reply :=
  JsonBody body_with_own_error.

End MoreSamples.

(** ** Proof steps used more than once *)

(** A loop that returned what it was given: no new table, no request. *)
Ltac no_new_table :=
  exists []; rewrite app_nil_r;
  split; [reflexivity|];
  split; [unfold min4; simpl; lia|];
  split; [|split; [simpl; lia | split; [exact I | reflexivity]]].

(* ================================================================== *)
(** * Part II: lemmas *)
(* ================================================================== *)

(** ** The model on small inputs *)

Example session_prefixes :
  map fst (adapters (_session default_finder)) = ["https://"; "http://"].
Proof. reflexivity. Qed.

Example scalar_arguments_are_one_query :
  exists t r,
    formulas Sample.always_answers Sample.str default_finder
      (VFloat 100) (VFloat 1) (VStr "C0-10H0-20O0-2") (VStr "+") []
    = (Ok t, [r]) /\
    dict_get "mfRange" (req_params r) = Some (VStr "C0-10H0-20O0-2(+)") /\
    map search_number_of (rows t) = [Some 0; Some 0].
Proof. do 2 eexists. split; [vm_compute; reflexivity|]. split; reflexivity. Qed.

Example a_string_is_iterated_by_character :
  iter (VStr "+-") = Some [VStr "+"; VStr "-"].
Proof. reflexivity. Qed.

Example undecodable_body_is_not_fatal :
  get_formulas (fun _ _ => JSONDecodeError "JSONDecodeError()") Sample.str
    default_finder (VFloat 100) (VFloat 1) (VStr "C0-10") (VStr "+") []
  = (Ok (error_response false "JSONDecodeError()"
           (VFloat 100) (VFloat 1) (VStr "C0-10(+)") (VStr "+")),
     [mkRequest url
        [("mfRange", VStr "C0-10(+)");
         ("numberOfResultsOnly", VBool false);
         ("typedResult", VBool false);
         ("useUnsaturation", VBool false);
         ("minUnsaturation", VInt 0);
         ("maxUnsaturation", VInt 50);
         ("jcampBaseURL", VStr "http://www.chemcalc.org/service/jcamp/");
         ("monoisotopicMass", VFloat 100);
         ("jcampLink", VBool true);
         ("integerUnsaturation", VBool false);
         ("referenceVersion", VStr "2013");
         ("massRange", VFloat 1)]
        5 default_adapter]).
Proof. reflexivity. Qed.

Example a_list_body_is_a_type_error :
  fst (get_formulas (fun _ _ => JsonBody (VList [])) Sample.str default_finder
         (VFloat 100) (VFloat 1) (VStr "C0-10") (VStr "+") [])
  = Raise (TypeError "list indices must be integers or slices, not str").
Proof. reflexivity. Qed.

(** ** Dictionaries *)

Section DictFacts.

Implicit Types (k : string) (v : value) (d e : dict).

Lemma dict_get_set_same k v d : dict_get k (dict_set k v d) = Some v.
Proof.
  induction d as [|[k' v'] d IH]; simpl.
  - now rewrite String.eqb_refl.
  - destruct (String.eqb k k') eqn:E; simpl.
    + now rewrite String.eqb_refl.
    + now rewrite E.
Qed.

Lemma dict_get_set_other k k' v d :
  k <> k' -> dict_get k (dict_set k' v d) = dict_get k d.
Proof.
  intros Hne. apply String.eqb_neq in Hne.
  induction d as [|[k0 v0] d IH]; simpl.
  - now rewrite Hne.
  - destruct (String.eqb k' k0) eqn:E; simpl.
    + apply String.eqb_eq in E. subst k0. now rewrite Hne.
    + now rewrite IH.
Qed.

Lemma dict_get_remove_same k d : dict_get k (dict_remove k d) = None.
Proof.
  unfold dict_remove.
  induction d as [|[k' v'] d IH]; simpl; auto.
  destruct (String.eqb k k') eqn:E; simpl; auto.
  now rewrite E.
Qed.

Lemma dict_get_remove_other k k' d :
  k <> k' -> dict_get k (dict_remove k' d) = dict_get k d.
Proof.
  intros Hne. unfold dict_remove.
  induction d as [|[k0 v0] d IH]; simpl; auto.
  destruct (String.eqb k' k0) eqn:E; simpl.
  - apply String.eqb_eq in E. subst k0.
    apply String.eqb_neq in Hne. now rewrite Hne.
  - now rewrite IH.
Qed.

Lemma dict_get_None k d : dict_get k d = None <-> ~ In k (keys d).
Proof.
  induction d as [|[k' v'] d IH]; simpl.
  - tauto.
  - destruct (String.eqb k k') eqn:E.
    + apply String.eqb_eq in E. subst. split; [discriminate | tauto].
    + apply String.eqb_neq in E. rewrite IH. split.
      * intros H [H1 | H1]; [now apply E | now apply H].
      * tauto.
Qed.

Lemma dict_get_Some_In k v d : dict_get k d = Some v -> In (k, v) d.
Proof.
  induction d as [|[k' v'] d IH]; simpl; [discriminate|].
  destruct (String.eqb k k') eqn:E.
  - apply String.eqb_eq in E. subst. intros [= ->]. now left.
  - intros H. right. now apply IH.
Qed.

Lemma In_keys_dict_set x k v d :
  In x (keys (dict_set k v d)) <-> x = k \/ In x (keys d).
Proof.
  induction d as [|[k' v'] d IH]; simpl.
  - intuition.
  - destruct (String.eqb k k') eqn:E; simpl.
    + apply String.eqb_eq in E. subst k'. intuition.
    + rewrite IH. intuition.
Qed.

Lemma NoDup_keys_dict_set k v d :
  NoDup (keys d) -> NoDup (keys (dict_set k v d)).
Proof.
  induction d as [|[k' v'] d IH]; simpl; intros H.
  - constructor; [simpl; tauto | constructor].
  - destruct (String.eqb k k') eqn:E; simpl.
    + apply String.eqb_eq in E. now subst k'.
    + inversion H as [|? ? Hnin Hnd]; subst.
      constructor; [|now apply IH].
      rewrite In_keys_dict_set. apply String.eqb_neq in E.
      intros [-> | Hin]; [now apply E | now apply Hnin].
Qed.

Lemma NoDup_keys_dict_update d e :
  NoDup (keys d) -> NoDup (keys (dict_update d e)).
Proof.
  unfold dict_update. revert d.
  induction e as [|[k v] e IH]; simpl; intros d H; auto.
  apply IH. now apply NoDup_keys_dict_set.
Qed.

Lemma dict_get_update k d e :
  NoDup (keys e) ->
  dict_get k (dict_update d e) =
  match dict_get k e with
  | Some v => Some v
  | None => dict_get k d
  end.
Proof.
  unfold dict_update. revert d.
  induction e as [|[k1 v1] e IH]; simpl; intros d H; auto.
  inversion H as [|? ? Hnin Hnd]; subst.
  rewrite IH by assumption.
  destruct (String.eqb k k1) eqn:E.
  - apply String.eqb_eq in E. subst k1.
    apply dict_get_None in Hnin. rewrite Hnin.
    apply dict_get_set_same.
  - apply String.eqb_neq in E.
    now rewrite dict_get_set_other.
Qed.

Lemma dict_set_nonempty k v d : dict_set k v d <> [].
Proof.
  destruct d as [|[k' v'] d]; simpl; [discriminate|].
  destruct (String.eqb k k'); discriminate.
Qed.

Lemma dict_update_nonempty d e : e <> [] -> dict_update d e <> [].
Proof.
  unfold dict_update. revert d.
  induction e as [|[k v] e IH]; intros d H; [congruence|]. simpl.
  destruct e as [|kv e].
  - simpl. apply dict_set_nonempty.
  - apply IH. discriminate.
Qed.

Lemma combine_keys_values d : combine (keys d) (values d) = d.
Proof.
  induction d as [|[k v] d IH]; simpl; congruence.
Qed.

End DictFacts.

(** ** Frames *)

Section FrameFacts.

Lemma has_label_In c cols : has_label c cols = true <-> In c cols.
Proof.
  unfold has_label. rewrite existsb_exists. split.
  - intros [x [Hin Heq]]. apply String.eqb_eq in Heq. now subst.
  - intros Hin. exists c. split; [assumption | apply String.eqb_refl].
Qed.

Lemma In_union_columns c a b : In c (union_columns a b) <-> In c a \/ In c b.
Proof.
  unfold union_columns. revert a.
  induction b as [|x b IH]; simpl; intros a.
  - tauto.
  - rewrite IH. destruct (has_label x a) eqn:E.
    + apply has_label_In in E. split; [tauto|].
      intros [H | [H | H]]; subst; auto.
    + rewrite in_app_iff. simpl. tauto.
Qed.

Lemma rows_fold_append rest df :
  rows (fold_left append rest df) = rows df ++ List.concat (map rows rest).
Proof.
  revert df. induction rest as [|x rest IH]; simpl; intros df.
  - now rewrite app_nil_r.
  - rewrite IH. simpl. now rewrite app_assoc.
Qed.

Lemma rows_concat objs t :
  concat objs = Ok t -> rows t = List.concat (map rows objs).
Proof.
  destruct objs as [|df rest]; simpl; [discriminate|].
  intros [= <-]. apply rows_fold_append.
Qed.

Lemma rows_assign_each kvs df :
  rows (assign_each kvs df) = map (fun r => dict_update r kvs) (rows df).
Proof.
  unfold assign_each, dict_update. revert df.
  induction kvs as [|[k v] kvs IH]; simpl; intros df.
  - now rewrite map_id.
  - rewrite IH. simpl. now rewrite map_map.
Qed.

Lemma columns_assign_each c kvs df :
  In c (columns (assign_each kvs df)) <-> In c (columns df) \/ In c (keys kvs).
Proof.
  unfold assign_each. revert df.
  induction kvs as [|[k v] kvs IH]; simpl; intros df.
  - tauto.
  - rewrite IH. unfold assign. cbn [columns fst snd].
    rewrite In_union_columns. simpl. intuition.
Qed.

Lemma as_records_length l rs :
  as_records l = Some rs -> List.length rs = List.length l.
Proof.
  revert rs. induction l as [|x l IH]; simpl; intros rs.
  - now intros [= <-].
  - destruct x; try discriminate.
    destruct (as_records l) as [rs'|]; simpl; [|discriminate].
    intros [= <-]. simpl. f_equal. now apply IH.
Qed.

Lemma as_records_map rs : as_records (map VDict rs) = Some rs.
Proof.
  induction rs as [|r rs IH]; simpl; auto. now rewrite IH.
Qed.

Lemma scalar_values_dict_set k v d :
  is_scalar v = true ->
  forallb is_scalar (values d) = true ->
  forallb is_scalar (values (dict_set k v d)) = true.
Proof.
  intros Hv. induction d as [|[k' v'] d IH]; simpl.
  - now rewrite Hv.
  - intros H. apply andb_prop in H as [H1 H2].
    destruct (String.eqb k k'); simpl.
    + now rewrite Hv, H2.
    + now rewrite H1, IH.
Qed.

Lemma scalar_values_dict_update d e :
  forallb is_scalar (values d) = true ->
  forallb is_scalar (values e) = true ->
  forallb is_scalar (values (dict_update d e)) = true.
Proof.
  unfold dict_update. revert d.
  induction e as [|[k v] e IH]; simpl; intros d Hd He; auto.
  apply andb_prop in He as [H1 H2].
  apply IH; [|assumption]. now apply scalar_values_dict_set.
Qed.

Lemma scalar_values_filter (items : dict) :
  forallb is_scalar
    (values (filter (fun kv => negb (is_container (snd kv))) items)) = true.
Proof.
  induction items as [|[k v] items IH]; simpl; auto.
  destruct (is_container v) eqn:E; simpl; auto.
  unfold is_scalar at 1. now rewrite E, IH.
Qed.

End FrameFacts.

(** ** [results_meta_data] and [json_to_dataframe] *)

Section Normalizer.

Variables (d error options : dict).
Hypothesis Herror : dict_get "error" d = Some (VDict error).
Hypothesis Hoptions : dict_get "options" d = Some (VDict options).

(** The merged metadata, as [results_meta_data] builds it. *)
Let meta_data : dict :=
  dict_update
    (dict_update (dict_update [] options)
       (filter (fun kv => negb (is_container (snd kv))) d))
    error.

Lemma results_meta_data_eq : results_meta_data (VDict d) = Ok meta_data.
Proof.
  unfold results_meta_data, subscript, getitem.
  rewrite Hoptions. simpl. now rewrite Herror.
Qed.

Lemma meta_data_keys_distinct : NoDup (keys meta_data).
Proof.
  unfold meta_data. do 3 apply NoDup_keys_dict_update. constructor.
Qed.

Lemma meta_data_scalar :
  forallb is_scalar (values options) = true ->
  forallb is_scalar (values error) = true ->
  forallb is_scalar (values meta_data) = true.
Proof.
  intros Ho He. unfold meta_data.
  apply scalar_values_dict_update; [|assumption].
  apply scalar_values_dict_update; [|apply scalar_values_filter].
  apply scalar_values_dict_update; [reflexivity | assumption].
Qed.

Lemma meta_data_nonempty : error <> [] -> meta_data <> [].
Proof. intros H. unfold meta_data. now apply dict_update_nonempty. Qed.

End Normalizer.

Section JsonToDataframe.

Lemma fatal_not_in_df_columns : ~ In "fatal" df_columns.
Proof.
  unfold df_columns. simpl.
  intros H. repeat (destruct H as [H | H]; [discriminate H|]). exact H.
Qed.

Lemma error_frame_rows (e : dict) :
  rows (append (Pandas.empty df_columns) (of_records [e])) = [e].
Proof. reflexivity. Qed.

Lemma error_frame_columns (e : dict) :
  dict_get "fatal" e = None ->
  ~ In "fatal" (columns (append (Pandas.empty df_columns) (of_records [e]))).
Proof.
  intros He. unfold append, of_records. cbn [columns Pandas.empty fold_left].
  rewrite !In_union_columns. apply dict_get_None in He.
  intros [H | [[] | H]]; [now apply fatal_not_in_df_columns | now apply He].
Qed.

(** The error branch of [json_to_dataframe], end to end. *)
Lemma json_to_dataframe_error (d error : dict) (description fatal : value) :
  dict_get "error" d = Some (VDict error) ->
  dict_get "error_description" error = Some description ->
  description <> VNone ->
  dict_get "fatal" error = Some fatal ->
  json_to_dataframe (VDict d) =
  (Ok (append (Pandas.empty df_columns) (of_records [dict_remove "fatal" error])),
   VDict (dict_set "error" (VDict (dict_remove "fatal" error)) d)).
Proof.
  intros Herr Hdesc Hnn Hfatal.
  unfold json_to_dataframe, error_description, subscript, getitem.
  rewrite Herr. cbn [rbind]. rewrite Hdesc.
  assert (Hdel : del_error_fatal (VDict d) =
                 Ok (VDict (dict_set "error" (VDict (dict_remove "fatal" error)) d))).
  { unfold del_error_fatal, subscript, getitem, delitem.
    rewrite Herr. cbn [rbind]. now rewrite Hfatal. }
  destruct description; try congruence;
    rewrite Hdel; rewrite dict_get_set_same; reflexivity.
Qed.

(** Without an error description the function only reads its argument. *)
Lemma json_to_dataframe_no_error (d error : dict) :
  dict_get "error" d = Some (VDict error) ->
  dict_get "error_description" error = Some VNone ->
  json_to_dataframe (VDict d) =
  (json_to_dataframe_results (Pandas.empty df_columns) (VDict d), VDict d).
Proof.
  intros Herr Hdesc.
  unfold json_to_dataframe, error_description, subscript, getitem.
  rewrite Herr. cbn [rbind]. now rewrite Hdesc.
Qed.

End JsonToDataframe.

(** ** What [get_formulas] returns *)

Section GetFormulas.

Variable network : world -> request -> reply.
Variable str : value -> string.

(** The two shapes of a returned response: a decoded body with the
    no-error marker stored in it, or the error dictionary. *)
Lemma get_formulas_returns self mass accuracy mf_range charge w j w' :
  get_formulas network str self mass accuracy mf_range charge w = (Ok j, w') ->
  (exists d, j = VDict (dict_set "error" (VDict [("error_description", VNone)]) d)) \/
  (exists fatal repr mf,
      j = error_response fatal repr mass accuracy mf charge).
Proof.
  unfold get_formulas, bind, session_get_json.
  destruct (get_adapter (_session self) url) as [a|]; [|discriminate].
  match goal with |- context [network w ?r] => destruct (network w r) as [body|s|s|s|s] end;
    unfold ret, raise, lift.
  - destruct body; simpl; try discriminate.
    intros [= <- <-]. left. eauto.
  - intros [= <- <-]. right. eauto.
  - intros [= <- <-]. right. eauto.
  - intros [= <- <-]. right. eauto.
  - discriminate.
Qed.

(** One call of [get_formulas] is at most one call of [Session.get]. *)
Lemma get_formulas_world self mass accuracy mf_range charge w r w' :
  get_formulas network str self mass accuracy mf_range charge w = (r, w') ->
  (w' = w /\ exists e, r = Raise e) \/ (exists req, w' = w ++ [req]).
Proof.
  unfold get_formulas, bind, session_get_json.
  destruct (get_adapter (_session self) url) as [a|].
  - match goal with |- context [network w ?r] => destruct (network w r) as [body|s|s|s|s] end;
      unfold ret, raise, lift; intros [= <- <-]; right; eauto.
  - intros [= <- <-]. left. eauto.
Qed.

End GetFormulas.

(** ** The normalizer: claims C3, C5, C8 and C9 *)

(** C9: [json_to_dataframe] changes the object it is given.  When the
    [error] dictionary of the response holds a non-null [error_description]
    and a [fatal] key, the response the caller is left with after the call
    has an [error] dictionary without the [fatal] key (looking it up there
    finds nothing); every other key of [error], and every other key of the
    response, is as before. *)
Theorem json_to_dataframe_deletes_fatal :
  forall (d error : dict) (description fatal : value),
    dict_get "error" d = Some (VDict error) ->
    dict_get "error_description" error = Some description ->
    description <> VNone ->
    dict_get "fatal" error = Some fatal ->
    exists outcome d' error',
      json_to_dataframe (VDict d) = (outcome, VDict d') /\
      dict_get "error" d' = Some (VDict error') /\
      dict_get "fatal" error' = None /\
      subscript (VDict error') "fatal" = Raise (KeyError "fatal") /\
      (forall k, k <> "fatal" -> dict_get k error' = dict_get k error) /\
      (forall k, k <> "error" -> dict_get k d' = dict_get k d).
Proof.
  intros d error description fatal Herr Hdesc Hnn Hfatal.
  rewrite (json_to_dataframe_error d error description fatal) by assumption.
  do 3 eexists. split; [reflexivity|].
  split; [apply dict_get_set_same|].
  assert (Hgone : dict_get "fatal" (dict_remove "fatal" error) = None)
    by apply dict_get_remove_same.
  split; [exact Hgone|].
  split; [unfold subscript, getitem; now rewrite Hgone|].
  split; intros k Hk.
  - now apply dict_get_remove_other.
  - now apply dict_get_set_other.
Qed.

Lemma json_to_dataframe_deletes_fatal_witness :
  exists outcome d' error',
    json_to_dataframe Sample.fatal_response = (outcome, VDict d') /\
    dict_get "error" d' = Some (VDict error') /\
    dict_get "fatal" error' = None /\
    subscript (VDict error') "fatal" = Raise (KeyError "fatal") /\
    (forall k, k <> "fatal" ->
       dict_get k error' =
       dict_get k [("fatal", VBool true);
                   ("error_description", VStr "ConnectionError(MaxRetryError())");
                   ("em", VFloat 150); ("accuracy", VFloat 1);
                   ("mfRange", VStr "C0-10H0-20O0-2(+)"); ("charge", VStr "+")]) /\
    (forall k, k <> "error" ->
       dict_get k d' =
       match Sample.fatal_response with VDict d => dict_get k d | _ => None end).
Proof.
  apply (json_to_dataframe_deletes_fatal
           [("error",
             VDict [("fatal", VBool true);
                    ("error_description", VStr "ConnectionError(MaxRetryError())");
                    ("em", VFloat 150); ("accuracy", VFloat 1);
                    ("mfRange", VStr "C0-10H0-20O0-2(+)"); ("charge", VStr "+")])]
           _ (VStr "ConnectionError(MaxRetryError())") (VBool true)).
  - reflexivity.
  - reflexivity.
  - discriminate.
  - reflexivity.
Defined.

(** C5: a response of [get_formulas] whose [error] dictionary holds a
    non-null [error_description] is turned by [json_to_dataframe] into a
    table of exactly one row, the error row (it carries that description);
    the table has no [fatal] column and the row no [fatal] cell. *)
Theorem error_response_gives_one_row :
  forall (network : world -> request -> reply) (str : value -> string)
         (self : ChemCalcFormulaFinder) (mass accuracy mf_range charge : value)
         (w w' : world) (formulas_json description : value),
    get_formulas network str self mass accuracy mf_range charge w
      = (Ok formulas_json, w') ->
    error_description formulas_json = Ok description ->
    description <> VNone ->
    exists df formulas_json' r,
      json_to_dataframe formulas_json = (Ok df, formulas_json') /\
      rows df = [r] /\
      dict_get "error_description" r = Some description /\
      dict_get "fatal" r = None /\
      ~ In "fatal" (columns df).
Proof.
  intros network str self mass accuracy mf_range charge w w' j description Hget Hdesc Hnn.
  apply get_formulas_returns in Hget as [[d ->] | (fatal & repr & mf & ->)].
  - exfalso. apply Hnn.
    unfold error_description, subscript, getitem in Hdesc.
    rewrite dict_get_set_same in Hdesc. simpl in Hdesc. congruence.
  - assert (description = VStr repr) as -> by (cbv in Hdesc; congruence).
    unfold error_response.
    erewrite json_to_dataframe_error;
      [|reflexivity | reflexivity | discriminate | reflexivity].
    do 3 eexists. split; [reflexivity|].
    split; [apply error_frame_rows|].
    split; [reflexivity|].
    split; [reflexivity|].
    apply error_frame_columns. reflexivity.
Qed.

Lemma error_response_gives_one_row_witness :
  exists df formulas_json' r,
    json_to_dataframe Sample.fatal_response = (Ok df, formulas_json') /\
    rows df = [r] /\
    dict_get "error_description" r = Some (VStr "ConnectionError(MaxRetryError())") /\
    dict_get "fatal" r = None /\
    ~ In "fatal" (columns df).
Proof.
  eapply (error_response_gives_one_row Sample.second_call_fails Sample.str
            default_finder (VFloat 150) (VFloat 1) (VStr "C0-10H0-20O0-2") (VStr "+")
            [mkRequest url [] 5 default_adapter]).
  - reflexivity.
  - reflexivity.
  - discriminate.
Defined.

(** C3: what the code does on a response with a null error description and
    an empty [results] list, when the values of [options] and of [error] are
    scalars (as in every response of the service): the merged metadata is a
    dictionary of scalars, [pd.DataFrame(meta_data)] refuses it, and
    [json_to_dataframe] raises [ValueError] instead of returning the one-row
    table. *)
Theorem empty_results_raise :
  forall (d error options : dict),
    dict_get "error" d = Some (VDict error) ->
    dict_get "error_description" error = Some VNone ->
    dict_get "options" d = Some (VDict options) ->
    dict_get "results" d = Some (VList []) ->
    forallb is_scalar (values options) = true ->
    forallb is_scalar (values error) = true ->
    json_to_dataframe (VDict d) =
    (Raise (ValueError "If using all scalar values, you must pass an index"),
     VDict d).
Proof.
  intros d error options Herr Hdesc Hopt Hres Hso Hse.
  rewrite (json_to_dataframe_no_error d error) by assumption.
  f_equal. unfold json_to_dataframe_results.
  rewrite (results_meta_data_eq d error options) by assumption.
  cbn [rbind]. unfold subscript, getitem. rewrite Hres. cbn [rbind truthy negb].
  assert (Hne : error <> []) by (intros ->; discriminate).
  pose proof (meta_data_nonempty d error options Hne) as Hm.
  pose proof (meta_data_scalar d error options Hso Hse) as Hs.
  unfold DataFrame_of_dict.
  destruct (dict_update _ error) as [|kv rest]; [congruence|].
  now rewrite Hs.
Qed.

Lemma empty_results_raise_witness :
  json_to_dataframe Sample.no_candidate_response =
  (Raise (ValueError "If using all scalar values, you must pass an index"),
   Sample.no_candidate_response).
Proof.
  apply (empty_results_raise
           [("results", VList []);
            ("options", VDict [("mfRange", VStr "C0-10H0-20O0-2(+)");
                               ("massRange", VFloat 1)]);
            ("numberResults", VInt 0);
            ("error", VDict [("error_description", VNone)])]
           [("error_description", VNone)]
           [("mfRange", VStr "C0-10H0-20O0-2(+)"); ("massRange", VFloat 1)]);
    reflexivity.
Defined.

(** C8: a response with a null error description and a non-empty [results]
    list of candidate records (the values of [options] and of [error] being
    scalars) is turned into a table with one row per candidate, in order.
    Every metadata key is a column of the table and every row holds the
    metadata value under it, the same in all rows; under any other label a
    row holds what its candidate holds.  The response is left as it was. *)
Theorem candidates_carry_metadata :
  forall (d error options : dict) (candidates : list dict) (meta_data : dict),
    dict_get "error" d = Some (VDict error) ->
    dict_get "error_description" error = Some VNone ->
    dict_get "options" d = Some (VDict options) ->
    dict_get "results" d = Some (VList (map VDict candidates)) ->
    candidates <> [] ->
    forallb is_scalar (values options) = true ->
    forallb is_scalar (values error) = true ->
    results_meta_data (VDict d) = Ok meta_data ->
    exists df,
      json_to_dataframe (VDict d) = (Ok df, VDict d) /\
      List.length (rows df) = List.length candidates /\
      (forall k v, dict_get k meta_data = Some v ->
         In k (columns df) /\
         forall r, In r (rows df) -> dict_get k r = Some v) /\
      Forall2
        (fun r c => forall k, dict_get k meta_data = None -> dict_get k r = dict_get k c)
        (rows df) candidates.
Proof.
  intros d error options candidates meta_data Herr Hdesc Hopt Hres Hne Hso Hse Hmeta.
  rewrite (json_to_dataframe_no_error d error) by assumption.
  pose proof (meta_data_keys_distinct d error options) as Hnd.
  pose proof (meta_data_scalar d error options Hso Hse) as Hs.
  rewrite (results_meta_data_eq d error options) in Hmeta by assumption.
  injection Hmeta as Hmeta. rewrite Hmeta in Hnd, Hs.
  unfold json_to_dataframe_results.
  rewrite (results_meta_data_eq d error options) by assumption.
  rewrite Hmeta. cbn [rbind]. unfold subscript, getitem. rewrite Hres. cbn [rbind].
  assert (Ht : truthy (VList (map VDict candidates)) = true)
    by (destruct candidates; [congruence | reflexivity]).
  rewrite Ht. cbn [negb from_dict]. unfold DataFrame_of_list.
  rewrite as_records_map. cbn [rbind concat fold_left].
  unfold setitem_list, keys, values. rewrite !length_map, Nat.eqb_refl. cbn [negb].
  fold (values meta_data). rewrite Hs. fold (keys meta_data).
  rewrite combine_keys_values.
  eexists. split; [reflexivity|].
  rewrite rows_assign_each. cbn [rows append of_records Pandas.empty app].
  split; [apply length_map|].
  split.
  - intros k v Hk. split.
    + apply columns_assign_each. right.
      apply dict_get_Some_In in Hk. apply (in_map fst) in Hk. exact Hk.
    + intros r Hr. apply in_map_iff in Hr as [c [<- _]].
      rewrite dict_get_update by assumption. now rewrite Hk.
  - clear Hres Ht Hne. induction candidates as [|c cs IH]; simpl; constructor; auto.
    intros k Hk. rewrite dict_get_update by assumption. now rewrite Hk.
Qed.

Lemma candidates_carry_metadata_witness :
  exists df,
    json_to_dataframe Sample.two_candidates_response
      = (Ok df, Sample.two_candidates_response) /\
    List.length (rows df) = 2%nat /\
    (forall k v,
        dict_get k [("mfRange", VStr "C0-10H0-20O0-2(+)"); ("massRange", VFloat 1);
                    ("numberResults", VInt 2); ("error_description", VNone)] = Some v ->
        In k (columns df) /\
        forall r, In r (rows df) -> dict_get k r = Some v) /\
    Forall2
      (fun r c =>
         forall k,
           dict_get k [("mfRange", VStr "C0-10H0-20O0-2(+)"); ("massRange", VFloat 1);
                       ("numberResults", VInt 2); ("error_description", VNone)] = None ->
           dict_get k r = dict_get k c)
      (rows df)
      [[("em", VFloat 100); ("mf", VStr "C7H16"); ("unsat", VInt 0)];
       [("em", VFloat 100); ("mf", VStr "C6H12O"); ("unsat", VInt 1)]].
Proof.
  apply (candidates_carry_metadata
           [("results",
             VList [VDict [("em", VFloat 100); ("mf", VStr "C7H16"); ("unsat", VInt 0)];
                    VDict [("em", VFloat 100); ("mf", VStr "C6H12O"); ("unsat", VInt 1)]]);
            ("options", VDict [("mfRange", VStr "C0-10H0-20O0-2(+)");
                               ("massRange", VFloat 1)]);
            ("numberResults", VInt 2);
            ("error", VDict [("error_description", VNone)])]
           [("error_description", VNone)]
           [("mfRange", VStr "C0-10H0-20O0-2(+)"); ("massRange", VFloat 1)]
           [[("em", VFloat 100); ("mf", VStr "C7H16"); ("unsat", VInt 0)];
            [("em", VFloat 100); ("mf", VStr "C6H12O"); ("unsat", VInt 1)]]).
  - reflexivity.
  - reflexivity.
  - reflexivity.
  - reflexivity.
  - discriminate.
  - reflexivity.
  - reflexivity.
  - reflexivity.
Defined.

(** ** The session: claim C4 *)

(** C4: the adapter that carries the retry policy is mounted for the prefix
    ["http://"], and the endpoint URL starts with ["https://"].  So for every
    configuration of the finder the session hands the endpoint URL to the
    adapter that [requests.Session()] mounted by default, whose policy is
    [Retry(0, read=False)]: no retry, empty status list.  Every call
    [get_formulas] makes goes out through that adapter; only a URL under
    ["http://"] would reach the retry-configured one. *)
Theorem endpoint_is_served_without_retry :
  forall (network : world -> request -> reply) (str : value -> string)
         (typed_result use_unsaturation : bool)
         (min_unsaturation max_unsaturation : Z)
         (integer_unsaturation jcamp_link : bool)
         (mass accuracy mf_range charge : value) (w : world),
    let self := __init__ typed_result use_unsaturation min_unsaturation
                  max_unsaturation integer_unsaturation jcamp_link in
    get_adapter (_session self) url = Some default_adapter /\
    (exists params,
        snd (get_formulas network str self mass accuracy mf_range charge w)
        = w ++ [mkRequest url params 5 default_adapter]) /\
    total (max_retries default_adapter) = Times 0 /\
    status_forcelist (max_retries default_adapter) = [] /\
    default_adapter <> retry_adapter /\
    get_adapter (_session self) "http://www.chemcalc.org/chemcalc/em"
    = Some retry_adapter.
Proof.
  intros network str tr uu mn mx iu jl mass accuracy mf_range charge w self.
  split; [reflexivity|].
  split.
  - unfold get_formulas, bind, session_get_json.
    replace (get_adapter (_session self) url) with (Some default_adapter)
      by reflexivity.
    eexists.
    match goal with |- context [network w ?r] => destruct (network w r) as [body|s|s|s|s] end;
      reflexivity.
  - repeat split; try reflexivity. discriminate.
Qed.

(** ** The utility functions: claim C6 *)

Lemma ppm_error_sample : ppm_error 1e6%float 1%float = Ok 1%float.
Proof. vm_compute. reflexivity. Qed.

Lemma ppm_to_mass_sample : ppm_to_mass 1e6%float 1%float = Ok 1%float.
Proof. vm_compute. reflexivity. Qed.



(** For a nonzero mass neither function raises, whatever the floats. *)
Lemma round_trip_binary64_defined (mass x : float) :
  PrimFloat.eqb mass 0%float = false ->
  exists y, round_trip mass x = Ok y.
Proof.
  intros Hmass. unfold round_trip, ppm_error, ppm_to_mass.
  cbn [truediv mul literal_1e6 binary64]. rewrite Hmass. cbn [rbind].
  replace (PrimFloat.eqb 1e6%float 0%float) with false by (vm_compute; reflexivity).
  eexists. reflexivity.
Qed.

(** Far from the whole numbers the result need not even be near [x]: the
    intermediate product underflows, overflows, or is [inf * 0]. *)
Example round_trip_underflows :
  round_trip 1e300%float 1e-300%float = Ok 0%float.
Proof. vm_compute. reflexivity. Qed.

Example round_trip_overflows :
  round_trip 1e-300%float 1e300%float = Ok infinity.
Proof. vm_compute. reflexivity. Qed.

Example round_trip_of_infinite_mass_is_nan :
  exists y, round_trip infinity 1%float = Ok y /\ PrimFloat.eqb y y = false.
Proof. eexists. split; vm_compute; reflexivity. Qed.






(** At mass 7 and [x = 61] the two floats are needed: the result is the
    second float below [61.0]. *)
Example round_trip_two_floats_away :
  round_trip (float_of_Z 7) (float_of_Z 61)
  = Ok (next_down (next_down (float_of_Z 61))).
Proof. vm_compute. reflexivity. Qed.

(** ** One turn of the loop of [formulas] *)

Section Step.

Variable network : world -> request -> reply.
Variable str : value -> string.
Variable self : ChemCalcFormulaFinder.

Lemma from_dict_rows results r :
  from_dict results = Ok r -> truthy results = true -> rows r <> [].
Proof.
  destruct results as [| | | | |l|d0]; simpl; try discriminate.
  - unfold DataFrame_of_list.
    destruct (as_records l) as [rs|] eqn:E; [|discriminate].
    intros [= <-] Hl. apply as_records_length in E.
    destruct l; [discriminate Hl|]. destruct rs; [simpl in E; discriminate E|].
    discriminate.
  - destruct d0 as [|kv d0]; [intros _ H; discriminate H|].
    unfold DataFrame_of_dict.
    destruct (forallb is_scalar (values (kv :: d0))); intros H; discriminate H.
Qed.

(** A table [json_to_dataframe] returns for a response without error
    description has at least one row. *)
Lemma json_to_dataframe_results_rows cols d error df :
  dict_get "error" d = Some (VDict error) ->
  error <> [] ->
  json_to_dataframe_results (Pandas.empty cols) (VDict d) = Ok df ->
  rows df <> [].
Proof.
  intros Herr Hne. unfold json_to_dataframe_results.
  destruct (results_meta_data (VDict d)) as [meta|] eqn:Hm; [|discriminate].
  cbn [rbind].
  destruct (subscript (VDict d) "results") as [results|]; [|discriminate].
  cbn [rbind]. destruct (truthy results) eqn:Ht; cbn [negb].
  - destruct (from_dict results) as [r|] eqn:Hr; [|discriminate].
    cbn [rbind concat fold_left]. unfold setitem_list.
    destruct (negb _); [discriminate|].
    destruct (forallb _ _); [|discriminate].
    intros [= <-]. rewrite rows_assign_each. cbn [rows append Pandas.empty app].
    pose proof (from_dict_rows _ _ Hr Ht) as Hrows.
    destruct (rows r); [congruence | discriminate].
  - unfold results_meta_data, subscript, getitem in Hm.
    destruct (dict_get "options" d) as [[| | | | | |options]|]; try discriminate Hm.
    rewrite Herr in Hm. cbn [rbind] in Hm. injection Hm as <-.
    unfold DataFrame_of_dict.
    destruct (dict_update _ error) as [|kv rest] eqn:E.
    + now apply dict_update_nonempty in E.
    + destruct (forallb _ _); discriminate.
Qed.

(** The table made of a response of [get_formulas] has at least one row,
    and the response, as [json_to_dataframe] leaves it, has no [fatal_error]
    key: the condition of the [break] is false. *)
Lemma normalized_response mz accuracy mf_range charge w j w1 df j' :
  get_formulas network str self mz accuracy mf_range charge w = (Ok j, w1) ->
  json_to_dataframe j = (Ok df, j') ->
  rows df <> [] /\ fatal_error_flag j' = Ok false.
Proof.
  intros Hget Hjd.
  apply get_formulas_returns in Hget as [[d ->] | (fatal & repr & mf & ->)].
  - erewrite json_to_dataframe_no_error in Hjd;
      [|apply dict_get_set_same | reflexivity].
    injection Hjd as Hdf <-. split.
    + apply (json_to_dataframe_results_rows df_columns _
               [("error_description", VNone)] df
               (dict_get_set_same "error" (VDict [("error_description", VNone)]) d));
        [intros H; discriminate H | exact Hdf].
    + unfold fatal_error_flag, subscript, getitem.
      now rewrite dict_get_set_same.
  - unfold error_response in Hjd.
    erewrite json_to_dataframe_error in Hjd;
      [|reflexivity | reflexivity | discriminate | reflexivity].
    injection Hjd as <- <-. split; [discriminate | reflexivity].
Qed.

(** A turn that does not raise sends one request, appends the table of the
    response with [index] in its [search_number] column, and does not
    break. *)
Lemma formulas_step_ok index mz accuracy mf_range charge results w out stop w' :
  formulas_step network str self index mz accuracy mf_range charge results w
  = (Ok (out, stop), w') ->
  stop = false /\
  exists j df j' req,
    get_formulas network str self mz accuracy mf_range charge w = (Ok j, w') /\
    json_to_dataframe j = (Ok df, j') /\
    out = results ++ [assign "search_number" (VInt index) df] /\
    rows df <> [] /\
    w' = w ++ [req].
Proof.
  unfold formulas_step, bind.
  destruct (get_formulas network str self mz accuracy mf_range charge w)
    as [[j|e] w1] eqn:Hget; [|discriminate].
  destruct (get_formulas_world _ _ _ _ _ _ _ _ _ _ Hget) as [[_ [e He]] | [req Hw]];
    [discriminate|].
  destruct (json_to_dataframe j) as [[df|e] j'] eqn:Hjd;
    unfold lift, ret; [|discriminate].
  destruct (normalized_response _ _ _ _ _ _ _ _ _ Hget Hjd) as [Hrows Hflag].
  rewrite Hflag. cbn. intros [= <- <- <-]. split; [reflexivity|].
  exists j, df, j', req. repeat split; assumption.
Qed.

(** Whatever the outcome, a turn adds at most one request to the log. *)
Lemma formulas_step_world index mz accuracy mf_range charge results w r w' :
  formulas_step network str self index mz accuracy mf_range charge results w
  = (r, w') ->
  exists sent, w' = w ++ sent /\ (List.length sent <= 1)%nat.
Proof.
  unfold formulas_step, bind.
  destruct (get_formulas network str self mz accuracy mf_range charge w)
    as [[j|e] w1] eqn:Hget.
  - destruct (get_formulas_world _ _ _ _ _ _ _ _ _ _ Hget) as [[_ [e He]] | [req Hw]];
      [discriminate|]. subst w1.
    destruct (json_to_dataframe j) as [[df|e] j'];
      unfold lift, ret; [|intros [= <- <-]; exists [req]; auto].
    destruct (setitem _ _ df); [|intros [= <- <-]; exists [req]; auto].
    destruct (fatal_error_flag j'); intros [= <- <-]; exists [req]; auto.
  - intros [= <- <-].
    destruct (get_formulas_world _ _ _ _ _ _ _ _ _ _ Hget) as [[-> _] | [req ->]].
    + exists []. rewrite app_nil_r. auto.
    + exists [req]. auto.
Qed.

End Step.

(** ** The loop of [formulas] *)

Section Loop.

Variable network : world -> request -> reply.
Variable str : value -> string.
Variable self : ChemCalcFormulaFinder.

Lemma same_lengths_cons m a f c ms accs mfs chs :
  same_lengths (m :: ms) (a :: accs) (f :: mfs) (c :: chs) <->
  same_lengths ms accs mfs chs.
Proof. unfold same_lengths. simpl. intuition lia. Qed.

(** A loop that ends without raising has processed every tuple [zip]
    yields: it never breaks.  The tables it appended are non-empty and
    tagged with consecutive indices, and it sent one request per table. *)
Lemma formulas_loop_ok :
  forall ms strict index accs mfs chs results w out w',
    formulas_loop network str self strict index ms accs mfs chs results w
    = (Ok out, w') ->
    exists new,
      out = results ++ new /\
      List.length new =
        min4 (List.length ms) (List.length accs) (List.length mfs) (List.length chs) /\
      (strict = true -> same_lengths ms accs mfs chs) /\
      List.length w' = (List.length w + List.length new)%nat /\
      tagged_blocks index (map rows new) /\
      answered_in_order network str self index (zip4 ms accs mfs chs) w
        (map rows new) w'.
Proof.
  induction ms as [|mz ms IH]; intros strict index accs mfs chs results w out w' H.
  - simpl in H.
    destruct strict.
    + destruct accs, mfs, chs; try discriminate H.
      injection H as <- <-. no_new_table. intros _. repeat split.
    + injection H as <- <-. no_new_table. discriminate.
  - simpl in H.
    destruct accs as [|a accs], mfs as [|f mfs], chs as [|c chs];
      try (destruct strict; [discriminate H|];
           injection H as <- <-; no_new_table; discriminate).
    unfold bind in H.
    destruct (formulas_step network str self index mz a f c results w)
      as [[[res stop]|e] w1] eqn:Hs; [|discriminate H].
    apply formulas_step_ok in Hs
      as [-> (j & df & j' & req & Hget & Hjd & -> & Hrows & Hw1)].
    apply IH in H as (new & -> & Hlen & Hsame & Hw & Htag & Hans).
    exists (assign "search_number" (VInt index) df :: new).
    split; [now rewrite <- app_assoc|].
    split; [simpl; rewrite Hlen; unfold min4; lia|].
    split; [intros Hstrict; apply same_lengths_cons; auto|].
    split; [rewrite Hw, Hw1, length_app; simpl; lia|].
    split.
    + simpl. split; [|split; [|exact Htag]].
      * destruct (rows df); [congruence | discriminate].
      * intros r Hr. apply in_map_iff in Hr as [r0 [<- _]].
        apply dict_get_set_same.
    + cbn [zip4 combine map answered_in_order].
      exists j, w1, df, j'. repeat split; assumption.
Qed.

(** At most one request per tuple, whatever the outcome. *)
Lemma formulas_loop_world :
  forall ms strict index accs mfs chs results w r w',
    formulas_loop network str self strict index ms accs mfs chs results w = (r, w') ->
    exists sent,
      w' = w ++ sent /\
      (List.length sent <=
       min4 (List.length ms) (List.length accs) (List.length mfs) (List.length chs))%nat.
Proof.
  induction ms as [|mz ms IH]; intros strict index accs mfs chs results w r w' H.
  - exists []. rewrite app_nil_r. split; [|simpl; lia].
    simpl in H. destruct strict; [destruct accs, mfs, chs|];
      injection H as _ <-; reflexivity.
  - simpl in H.
    destruct accs as [|a accs], mfs as [|f mfs], chs as [|c chs];
      try (exists []; rewrite app_nil_r; split; [|simpl; lia];
           destruct strict; injection H as _ <-; reflexivity).
    unfold bind in H.
    destruct (formulas_step network str self index mz a f c results w)
      as [[[res stop]|e] w1] eqn:Hs;
      apply formulas_step_world in Hs as (sent1 & -> & Hlen1).
    + destruct stop.
      * injection H as _ <-. exists sent1. split; [reflexivity|].
        unfold min4. simpl. lia.
      * apply IH in H as (sent2 & -> & Hlen2).
        exists (sent1 ++ sent2). split; [now rewrite app_assoc|].
        rewrite length_app. unfold min4 in *. simpl. lia.
    + injection H as _ <-. exists sent1. split; [reflexivity|].
      unfold min4. simpl. lia.
Qed.

(** With [strict=True] the loop runs exactly as over a plain [zip], tuple
    by tuple; on inputs of different lengths it differs only at the end,
    where it raises in place of finishing. *)
Lemma strict_loop_on_mismatch :
  forall ms index accs mfs chs results w,
    ~ same_lengths ms accs mfs chs ->
    match formulas_loop network str self false index ms accs mfs chs results w with
    | (Ok _, w1) =>
        exists e, is_zip_length_error e /\
          formulas_loop network str self true index ms accs mfs chs results w
          = (Raise e, w1)
    | (Raise e, w1) =>
        formulas_loop network str self true index ms accs mfs chs results w
        = (Raise e, w1)
    end.
Proof.
  induction ms as [|mz ms IH]; intros index accs mfs chs results w Hmis.
  - simpl. unfold ret, raise.
    destruct accs, mfs, chs;
      try (eexists; split; [|reflexivity]; eexists; right; reflexivity).
    exfalso. apply Hmis. repeat split.
  - simpl.
    destruct accs as [|a accs], mfs as [|f mfs], chs as [|c chs];
      try (unfold ret, raise; eexists; split; [|reflexivity];
           eexists; left; reflexivity).
    unfold bind.
    destruct (formulas_step network str self index mz a f c results w)
      as [[[res stop]|e] w1] eqn:Hs; [|reflexivity].
    apply formulas_step_ok in Hs as [-> _].
    apply IH. now rewrite same_lengths_cons in Hmis.
Qed.

End Loop.

(** ** Search numbers in order of first appearance *)

Section FirstAppearances.

Lemma first_appearances_incl z l : In z (first_appearances l) -> In z l.
Proof.
  revert z. induction l as [|x l IH]; simpl; intros z; [tauto|].
  intros [-> | H]; [now left|].
  apply filter_In in H as [H _]. right. now apply IH.
Qed.

Lemma filter_keeps_all {A : Type} (p : A -> bool) (l : list A) :
  (forall a, In a l -> p a = true) -> filter p l = l.
Proof.
  induction l as [|a l IH]; simpl; intros H; [reflexivity|].
  rewrite (H a) by now left. f_equal. apply IH. intros b Hb. apply H. now right.
Qed.

(** A run of equal values in front of a list that lacks the value counts
    once. *)
Lemma first_appearances_run x n l :
  ~ In x l ->
  first_appearances (repeat x (S n) ++ l) = x :: first_appearances l.
Proof.
  intros Hx. induction n as [|n IH].
  - simpl. f_equal. apply filter_keeps_all.
    intros a Ha. apply first_appearances_incl in Ha.
    apply negb_true_iff, Z.eqb_neq. intros ->. now apply Hx.
  - change (repeat x (S (S n)) ++ l) with (x :: (repeat x (S n) ++ l)).
    cbn [first_appearances]. rewrite IH. cbn [filter].
    rewrite Z.eqb_refl. cbn [negb]. f_equal. apply filter_keeps_all.
    intros a Ha. apply first_appearances_incl in Ha.
    apply negb_true_iff, Z.eqb_neq. intros ->. now apply Hx.
Qed.

Lemma tagged_block_numbers index (b : list row) :
  (forall r, In r b -> dict_get "search_number" r = Some (VInt index)) ->
  map search_number_of b = map Some (repeat index (List.length b)).
Proof.
  induction b as [|r b IH]; simpl; intros H; [reflexivity|].
  f_equal.
  - unfold search_number_of. now rewrite (H r) by now left.
  - apply IH. intros r' Hr'. apply H. now right.
Qed.

(** The search numbers of tagged blocks, read top to bottom, are the block
    positions, each once, in ascending order of first appearance. *)
Lemma tagged_blocks_first_appearances :
  forall blocks index,
    tagged_blocks index blocks ->
    exists zs,
      map search_number_of (List.concat blocks) = map Some zs /\
      first_appearances zs
      = map (fun i => index + Z.of_nat i) (seq 0 (List.length blocks)) /\
      (forall z, In z zs -> index <= z).
Proof.
  induction blocks as [|b blocks IH]; intros index Htag.
  - exists []. repeat split. intros z [].
  - destruct Htag as (Hne & Hb & Htag).
    destruct (IH _ Htag) as (zs & Hzs & Hfa & Hge).
    exists (repeat index (List.length b) ++ zs).
    split; [|split].
    + simpl. rewrite !map_app, Hzs. f_equal. now apply tagged_block_numbers.
    + destruct b as [|r b]; [congruence|].
      change (List.length (r :: b)) with (S (List.length b)).
      rewrite first_appearances_run.
      * rewrite Hfa. simpl. rewrite Z.add_0_r. f_equal.
        rewrite <- seq_shift, map_map. apply map_ext. intros i. lia.
      * intros Hin. apply Hge in Hin. lia.
    + intros z Hz. apply in_app_or in Hz as [Hz | Hz].
      * apply repeat_spec in Hz. lia.
      * apply Hge in Hz. lia.
Qed.

End FirstAppearances.

(** ** The batch: claims C1, C2, C7 and C10 *)

Section Batch.

Variable network : world -> request -> reply.
Variable str : value -> string.
Variable self : ChemCalcFormulaFinder.

Lemma loop_then_concat strict ms accs mfs chs n w t w' :
  min4 (List.length ms) (List.length accs) (List.length mfs) (List.length chs) = n ->
  bind (formulas_loop network str self strict 0 ms accs mfs chs [])
       (fun results => lift (concat results)) w = (Ok t, w') ->
  exists blocks,
    rows t = List.concat blocks /\
    List.length blocks = n /\
    answered_in_order network str self 0 (zip4 ms accs mfs chs) w blocks w' /\
    tagged_blocks 0 blocks /\
    List.length w' = (List.length w + n)%nat /\
    exists zs,
      map search_number_of (rows t) = map Some zs /\
      first_appearances zs = map Z.of_nat (seq 0 n).
Proof.
  intros Hn H. unfold bind in H.
  destruct (formulas_loop network str self strict 0 ms accs mfs chs [] w)
    as [[out|e] w1] eqn:Hl; [|discriminate H].
  apply formulas_loop_ok in Hl as (new & Hout & Hlen & _ & Hw & Htag & Hans).
  simpl in Hout. subst out. unfold lift in H.
  destruct (concat new) as [t0|e] eqn:Hc; [|discriminate H].
  injection H as -> ->. apply rows_concat in Hc.
  exists (map rows new). rewrite length_map, Hlen, Hn.
  split; [exact Hc|]. split; [reflexivity|]. split; [exact Hans|].
  split; [exact Htag|].
  split; [rewrite Hw, Hlen, Hn; reflexivity|].
  destruct (tagged_blocks_first_appearances _ _ Htag) as (zs & Hzs & Hfa & _).
  exists zs. rewrite Hc. split; [exact Hzs|].
  rewrite Hfa, length_map, Hlen, Hn. apply map_ext. intros i. lia.
Qed.

End Batch.

(** C7: when [formulas] returns a table for a batch of [n] queries (four
    iterables of [n] items each, or four arguments [zip] cannot iterate,
    taken as one query), the rows of the table are [n] consecutive blocks,
    one per query in input order: block [i] holds the rows made of the
    response to query [i]; it is not empty, and each of its rows holds [i],
    the 0-based position of the query, in [search_number].  Read top to
    bottom, the distinct search numbers are [0, ..., n-1] in ascending order
    of first appearance.  One request was sent per query. *)
Theorem search_numbers_are_query_positions :
  forall (network : world -> request -> reply) (str : value -> string)
         (self : ChemCalcFormulaFinder) (mass accuracy mf_range charge : value)
         (n : nat) (w w' : world) (t : DataFrame),
    batch_size mass accuracy mf_range charge n ->
    formulas network str self mass accuracy mf_range charge w = (Ok t, w') ->
    exists blocks,
      rows t = List.concat blocks /\
      List.length blocks = n /\
      answered_in_order network str self 0
        (queries mass accuracy mf_range charge) w blocks w' /\
      tagged_blocks 0 blocks /\
      List.length w' = (List.length w + n)%nat /\
      exists zs,
        map search_number_of (rows t) = map Some zs /\
        first_appearances zs = map Z.of_nat (seq 0 n).
Proof.
  intros network str self mass accuracy mf_range charge n w w' t Hbatch H.
  unfold formulas in H. unfold batch_size in Hbatch. unfold queries.
  destruct (iter mass) as [ms|], (iter accuracy) as [accs|],
           (iter mf_range) as [mfs|], (iter charge) as [chs|];
    try (subst n;
         exact (loop_then_concat network str self false
                  [mass] [accuracy] [mf_range] [charge] 1%nat w t w' eq_refl H)).
  destruct Hbatch as [(Ha & Hf & Hc) ->].
  apply (loop_then_concat network str self true ms accs mfs chs); [|exact H].
  unfold min4. rewrite Ha, Hf, Hc. lia.
Qed.

Lemma search_numbers_are_query_positions_witness :
  exists blocks,
    rows (match fst (formulas Sample.always_answers Sample.str default_finder
                       Sample.masses3 Sample.accuracies3 Sample.ranges3
                       Sample.charges3 [])
          with Ok t => t | Raise _ => Pandas.empty [] end)
    = List.concat blocks /\
    List.length blocks = 3%nat /\
    answered_in_order Sample.always_answers Sample.str default_finder 0
      (queries Sample.masses3 Sample.accuracies3 Sample.ranges3 Sample.charges3)
      [] blocks
      (snd (formulas Sample.always_answers Sample.str default_finder
              Sample.masses3 Sample.accuracies3 Sample.ranges3
              Sample.charges3 [])) /\
    tagged_blocks 0 blocks /\
    List.length (snd (formulas Sample.always_answers Sample.str default_finder
                        Sample.masses3 Sample.accuracies3 Sample.ranges3
                        Sample.charges3 []))
    = (List.length (@nil request) + 3)%nat /\
    exists zs,
      map search_number_of
        (rows (match fst (formulas Sample.always_answers Sample.str default_finder
                            Sample.masses3 Sample.accuracies3 Sample.ranges3
                            Sample.charges3 [])
               with Ok t => t | Raise _ => Pandas.empty [] end))
      = map Some zs /\
      first_appearances zs = map Z.of_nat (seq 0 3).
Proof.
  apply (search_numbers_are_query_positions Sample.always_answers Sample.str
           default_finder Sample.masses3 Sample.accuracies3 Sample.ranges3
           Sample.charges3 3 []).
  - repeat split.
  - vm_compute. reflexivity.
Defined.

(** C1: what the code does when a query of a batch ends in a fatal error.
    On a network where the second of three calls raises [ConnectionError],
    [formulas] does not stop after the second query: it sends all three
    requests and returns rows for the queries 0, 1 and 2.  (The loop tests
    the key [fatal_error], which no response holds; the error dictionary
    has the key [fatal], and [json_to_dataframe] has deleted it by then.) *)
Theorem fatal_error_does_not_stop_the_batch :
  exists t r1 r2 r3,
    formulas Sample.second_call_fails Sample.str default_finder
      Sample.masses3 Sample.accuracies3 Sample.ranges3 Sample.charges3 []
    = (Ok t, [r1; r2; r3]) /\
    Sample.second_call_fails [r1] r2 = ConnectionError "ConnectionError(MaxRetryError())" /\
    get_formulas Sample.second_call_fails Sample.str default_finder
      (VFloat 150) (VFloat 1) (VStr "C0-10H0-20O0-2") (VStr "+") [r1]
    = (Ok Sample.fatal_response, [r1; r2]) /\
    fatal_error_flag (snd (json_to_dataframe Sample.fatal_response)) = Ok false /\
    map search_number_of (rows t) = [Some 0; Some 0; Some 1; Some 2; Some 2].
Proof.
  do 4 eexists. split; [vm_compute; reflexivity|].
  repeat split.
Qed.

(** C2: what the code does with three masses and two accuracies, on a
    network that answers every call.  [zip(..., strict=True)] compares the
    lengths only when an iterator runs out, so the loop runs for the first
    two tuples: two requests are sent, for the masses 100 and 150, and only
    then does [zip] raise [ValueError]; the two tables collected are
    dropped.  The mismatch is not found before the first network call. *)
Theorem length_mismatch_sends_requests_first :
  exists r1 r2,
    formulas Sample.always_answers Sample.str default_finder
      Sample.masses3 Sample.accuracies2 Sample.ranges3 Sample.charges3 []
    = (Raise (ValueError "zip() argument 2 is shorter than argument 1"),
       [r1; r2]) /\
    dict_get "monoisotopicMass" (req_params r1) = Some (VFloat 100) /\
    dict_get "monoisotopicMass" (req_params r2) = Some (VFloat 150).
Proof.
  do 2 eexists. split; [vm_compute; reflexivity|].
  split; reflexivity.
Qed.

(** Hence the statement that a call with lists of different lengths leaves
    the request log as it found it is false of the code. *)
Lemma length_mismatch_is_found_after_requests :
  ~ (forall (network : world -> request -> reply) (str : value -> string)
            (self : ChemCalcFormulaFinder) (ms accs mfs chs : list value)
            (w w' : world) (r : result DataFrame),
        ~ same_lengths ms accs mfs chs ->
        formulas network str self (VList ms) (VList accs) (VList mfs) (VList chs) w
        = (r, w') ->
        (exists e, r = Raise e) /\ w' = w).
Proof.
  intros H.
  pose proof
    (H Sample.always_answers Sample.str default_finder
       [VFloat 100; VFloat 150; VFloat 200] [VFloat 1; VFloat 1]
       [VStr "C0-10H0-20O0-2"; VStr "C0-10H0-20O0-2"; VStr "C0-10H0-20O0-2"]
       [VStr "+"; VStr "+"; VStr "+"] [] _ _
       (fun Hs => ltac:(destruct Hs as [Hs _]; discriminate Hs))
       (surjective_pairing _)) as [_ Hw].
  vm_compute in Hw. discriminate Hw.
Qed.

(** C10: called with four empty sequences (four iterables that yield no
    item), [formulas] sends no request and returns no table: the loop body
    never runs, and [pd.concat] of the empty list of tables raises
    [ValueError]. *)
Theorem empty_batch_raises :
  forall (network : world -> request -> reply) (str : value -> string)
         (self : ChemCalcFormulaFinder) (mass accuracy mf_range charge : value)
         (w : world),
    iter mass = Some [] ->
    iter accuracy = Some [] ->
    iter mf_range = Some [] ->
    iter charge = Some [] ->
    formulas network str self mass accuracy mf_range charge w
    = (Raise (ValueError "No objects to concatenate"), w).
Proof.
  intros network str self mass accuracy mf_range charge w Hm Ha Hf Hc.
  unfold formulas. rewrite Hm, Ha, Hf, Hc.
  unfold bind. cbn [formulas_loop]. unfold ret, lift.
  reflexivity.
Qed.

Lemma empty_batch_raises_witness :
  formulas Sample.always_answers Sample.str default_finder
    (VList []) (VList []) (VList []) (VList []) []
  = (Raise (ValueError "No objects to concatenate"), []).
Proof.
  apply (empty_batch_raises Sample.always_answers Sample.str default_finder
           (VList []) (VList []) (VList []) (VList []) []);
    reflexivity.
Defined.

(* ================================================================== *)
(** * Part III: further properties of the code *)
(* ================================================================== *)

(** ** [json_to_dataframe]: what it changes and what it needs *)

Section NormalizerEdges.

Lemma del_error_fatal_ok j j2 :
  del_error_fatal j = Ok j2 ->
  exists d error fatal,
    j = VDict d /\
    dict_get "error" d = Some (VDict error) /\
    dict_get "fatal" error = Some fatal /\
    j2 = VDict (dict_set "error" (VDict (dict_remove "fatal" error)) d).
Proof.
  unfold del_error_fatal, subscript, getitem, delitem.
  destruct j as [| | | | | |d]; try (intros H; discriminate H).
  destruct (dict_get "error" d) as [[| | | | | |error]|] eqn:He;
    try (intros H; discriminate H).
  cbn [rbind].
  destruct (dict_get "fatal" error) as [fatal|] eqn:Hf;
    [|intros H; discriminate H].
  cbn [rbind store]. intros [= <-]. exists d, error, fatal.
  repeat split; assumption.
Qed.

Lemma dict_get_filter (p : string * value -> bool) k (d : dict) :
  NoDup (keys d) ->
  dict_get k (filter p d) =
  match dict_get k d with
  | Some v => if p (k, v) then Some v else None
  | None => None
  end.
Proof.
  induction d as [|[k' v'] d IH]; simpl; intros Hnd; [reflexivity|].
  inversion Hnd as [|? ? Hnin Hnd']; subst.
  destruct (String.eqb k k') eqn:E.
  - apply String.eqb_eq in E. subst k'.
    destruct (p (k, v')) eqn:Hp; simpl.
    + now rewrite String.eqb_refl.
    + rewrite IH by assumption.
      apply dict_get_None in Hnin. now rewrite Hnin.
  - destruct (p (k', v')); simpl; [rewrite E|]; now apply IH.
Qed.

Lemma NoDup_keys_filter (p : string * value -> bool) (d : dict) :
  NoDup (keys d) -> NoDup (keys (filter p d)).
Proof.
  induction d as [|[k v] d IH]; simpl; intros Hnd; [constructor|].
  inversion Hnd as [|? ? Hnin Hnd']; subst.
  destruct (p (k, v)); simpl; [|now apply IH].
  constructor; [|now apply IH].
  intros Hin. apply Hnin. unfold keys in *.
  apply in_map_iff in Hin as [[k0 v0] [Hk Hin]]. simpl in Hk. subst k0.
  apply filter_In in Hin as [Hin _]. apply in_map_iff. now exists (k, v0).
Qed.

End NormalizerEdges.

(** X1: [json_to_dataframe] changes the response it is given in one way
    only.  Either the response is, after the call, what it was before, or it
    was a dictionary whose [error] dictionary held a [fatal] key, the call
    returned a table, and the response afterwards differs by that one key
    having been deleted. *)
Theorem json_to_dataframe_changes_only_fatal :
  forall j : value,
    snd (json_to_dataframe j) = j \/
    exists d error fatal df,
      j = VDict d /\
      dict_get "error" d = Some (VDict error) /\
      dict_get "fatal" error = Some fatal /\
      json_to_dataframe j =
      (Ok df, VDict (dict_set "error" (VDict (dict_remove "fatal" error)) d)).
Proof.
  intros j. unfold json_to_dataframe.
  destruct (error_description j) as [description|e]; [|left; reflexivity].
  destruct (del_error_fatal j) as [j2|e] eqn:Hdel.
  - apply del_error_fatal_ok in Hdel as (d & error & fatal & -> & Herr & Hf & ->).
    destruct description; try (left; reflexivity);
      right; exists d, error, fatal; eexists;
      (split; [reflexivity|]; split; [exact Herr|]; split; [exact Hf|]);
      unfold subscript, getitem; rewrite dict_get_set_same; reflexivity.
  - destruct description; left; reflexivity.
Qed.

(** X2: an error dictionary with a non-null [error_description] but without
    the key [fatal] is not turned into an error row: [del] raises
    [KeyError('fatal')], and the response is left as it was. *)
Theorem error_without_fatal_key_raises :
  forall (d error : dict) (description : value),
    dict_get "error" d = Some (VDict error) ->
    dict_get "error_description" error = Some description ->
    description <> VNone ->
    dict_get "fatal" error = None ->
    json_to_dataframe (VDict d) = (Raise (KeyError "fatal"), VDict d).
Proof.
  intros d error description Herr Hdesc Hnn Hf.
  unfold json_to_dataframe, error_description, subscript, getitem.
  rewrite Herr. cbn [rbind]. rewrite Hdesc.
  assert (Hdel : del_error_fatal (VDict d) = Raise (KeyError "fatal")).
  { unfold del_error_fatal, subscript, getitem, delitem.
    rewrite Herr. cbn [rbind]. now rewrite Hf. }
  destruct description; try congruence; now rewrite Hdel.
Qed.

Lemma error_without_fatal_key_raises_witness :
  json_to_dataframe
    (VDict [("error", VDict [("error_description", VStr "timeout")])])
  = (Raise (KeyError "fatal"),
     VDict [("error", VDict [("error_description", VStr "timeout")])]).
Proof.
  apply (error_without_fatal_key_raises
           [("error", VDict [("error_description", VStr "timeout")])]
           [("error_description", VStr "timeout")] (VStr "timeout")).
  - reflexivity.
  - reflexivity.
  - discriminate.
  - reflexivity.
Defined.

(** X3: a response without error description must hold [options] and
    [results].  Without [options] the call raises [KeyError('options')];
    with an [options] dictionary but without [results] it raises
    [KeyError('results')].  Either way the response is left as it was. *)
Theorem response_without_options_or_results_raises :
  forall (d error : dict),
    dict_get "error" d = Some (VDict error) ->
    dict_get "error_description" error = Some VNone ->
    dict_get "options" d = None \/
    ((exists options, dict_get "options" d = Some (VDict options)) /\
     dict_get "results" d = None) ->
    json_to_dataframe (VDict d) =
    (Raise (KeyError match dict_get "options" d with
                     | None => "options"
                     | Some _ => "results"
                     end),
     VDict d).
Proof.
  intros d error Herr Hdesc Hmissing.
  rewrite (json_to_dataframe_no_error d error) by assumption.
  unfold json_to_dataframe_results, results_meta_data, subscript, getitem.
  destruct Hmissing as [Ho | [[options Ho] Hr]]; rewrite Ho.
  - reflexivity.
  - cbn [rbind]. rewrite Herr. cbn [rbind]. now rewrite Hr.
Qed.

Lemma response_without_options_or_results_raises_witness :
  json_to_dataframe
    (VDict [("options", VDict [("mfRange", VStr "C0-10(+)")]);
            ("error", VDict [("error_description", VNone)])])
  = (Raise (KeyError "results"),
     VDict [("options", VDict [("mfRange", VStr "C0-10(+)")]);
            ("error", VDict [("error_description", VNone)])]).
Proof.
  apply (response_without_options_or_results_raises
           [("options", VDict [("mfRange", VStr "C0-10(+)")]);
            ("error", VDict [("error_description", VNone)])]
           [("error_description", VNone)]).
  - reflexivity.
  - reflexivity.
  - right. split; [eexists; reflexivity | reflexivity].
Defined.

(** X4: in the merged metadata a key of the [error] dictionary wins over a
    top-level field of the same name, and a top-level field that is neither
    a dictionary nor a list wins over a key of [options]; top-level
    dictionaries and lists are not metadata.  (The dictionaries are
    dictionaries: no key twice.) *)
Theorem meta_data_precedence :
  forall (d error options meta_data : dict) (k : string),
    dict_get "error" d = Some (VDict error) ->
    dict_get "options" d = Some (VDict options) ->
    NoDup (keys d) -> NoDup (keys options) -> NoDup (keys error) ->
    results_meta_data (VDict d) = Ok meta_data ->
    dict_get k meta_data =
    match dict_get k error with
    | Some v => Some v
    | None =>
        match dict_get k d with
        | Some v => if is_container v then dict_get k options else Some v
        | None => dict_get k options
        end
    end.
Proof.
  intros d error options meta_data k Herr Hopt Hd Ho He Hmeta.
  rewrite (results_meta_data_eq d error options) in Hmeta by assumption.
  injection Hmeta as <-.
  rewrite dict_get_update by assumption.
  destruct (dict_get k error) as [v|]; [reflexivity|].
  rewrite dict_get_update by now apply NoDup_keys_filter.
  rewrite dict_get_filter by assumption.
  rewrite dict_get_update by assumption. simpl.
  destruct (dict_get k d) as [v|]; simpl.
  - destruct (is_container v); simpl; [|reflexivity].
    now destruct (dict_get k options).
  - now destruct (dict_get k options).
Qed.

Lemma meta_data_precedence_witness :
  dict_get "error_description"
    [("error_description", VNone); ("mfRange", VStr "C0-10(+)")]
  = match dict_get "error_description" [("error_description", VNone)] with
    | Some v => Some v
    | None =>
        match dict_get "error_description"
                [("error_description", VStr "server side");
                 ("results", VList []);
                 ("options", VDict [("error_description", VStr "echoed");
                                    ("mfRange", VStr "C0-10(+)")]);
                 ("error", VDict [("error_description", VNone)])] with
        | Some v =>
            if is_container v
            then dict_get "error_description"
                   [("error_description", VStr "echoed");
                    ("mfRange", VStr "C0-10(+)")]
            else Some v
        | None =>
            dict_get "error_description"
              [("error_description", VStr "echoed"); ("mfRange", VStr "C0-10(+)")]
        end
    end.
Proof.
  apply (meta_data_precedence
           [("error_description", VStr "server side");
            ("results", VList []);
            ("options", VDict [("error_description", VStr "echoed");
                               ("mfRange", VStr "C0-10(+)")]);
            ("error", VDict [("error_description", VNone)])]
           [("error_description", VNone)]
           [("error_description", VStr "echoed"); ("mfRange", VStr "C0-10(+)")]).
  - reflexivity.
  - reflexivity.
  - repeat constructor; simpl; intuition discriminate.
  - repeat constructor; simpl; intuition discriminate.
  - repeat constructor; simpl; intuition discriminate.
  - reflexivity.
Defined.

(** ** The columns of the tables *)

Section Columns.

Lemma union_columns_extends a b :
  exists extra,
    union_columns a b = a ++ extra /\ forall c, In c extra -> ~ In c a.
Proof.
  unfold union_columns. revert a.
  induction b as [|x b IH]; simpl; intros a.
  - exists []. rewrite app_nil_r. split; [reflexivity | intros c []].
  - destruct (has_label x a) eqn:E.
    + apply IH.
    + destruct (IH (a ++ [x])) as (extra & Heq & Hnew).
      exists (x :: extra). split.
      * rewrite Heq, <- app_assoc. reflexivity.
      * intros c [<- | Hc].
        -- intros Hin. apply has_label_In in Hin. congruence.
        -- intros Hin. apply (Hnew c Hc). apply in_or_app. now left.
Qed.

Lemma starts_with_union cols a b :
  (exists extra, a = cols ++ extra /\ forall c, In c extra -> ~ In c cols) ->
  exists extra,
    union_columns a b = cols ++ extra /\ forall c, In c extra -> ~ In c cols.
Proof.
  intros (extra & -> & Hextra).
  destruct (union_columns_extends (cols ++ extra) b) as (more & Heq & Hmore).
  exists (extra ++ more). split.
  - now rewrite Heq, app_assoc.
  - intros c Hc. apply in_app_or in Hc as [Hc | Hc]; [now apply Hextra|].
    intros Hin. apply (Hmore c Hc). apply in_or_app. now left.
Qed.

Lemma starts_with_empty cols : starts_with_columns cols (Pandas.empty cols).
Proof.
  exists []. simpl. rewrite app_nil_r. split; [reflexivity | intros c []].
Qed.

Lemma starts_with_append cols a b :
  starts_with_columns cols a -> starts_with_columns cols (append a b).
Proof.
  intros H. unfold starts_with_columns, append. cbn [columns].
  now apply starts_with_union.
Qed.

Lemma starts_with_assign cols c v df :
  starts_with_columns cols df -> starts_with_columns cols (assign c v df).
Proof.
  intros H. unfold starts_with_columns, assign. cbn [columns].
  now apply starts_with_union.
Qed.

Lemma starts_with_assign_each cols kvs df :
  starts_with_columns cols df -> starts_with_columns cols (assign_each kvs df).
Proof.
  unfold assign_each. revert df.
  induction kvs as [|[k v] kvs IH]; simpl; intros df H; [exact H|].
  apply IH. now apply starts_with_assign.
Qed.

Lemma starts_with_fold_append cols rest df :
  starts_with_columns cols df -> starts_with_columns cols (fold_left append rest df).
Proof.
  revert df. induction rest as [|x rest IH]; simpl; intros df H; [exact H|].
  apply IH. now apply starts_with_append.
Qed.

Lemma json_to_dataframe_results_columns cols j df :
  json_to_dataframe_results (Pandas.empty cols) j = Ok df ->
  starts_with_columns cols df.
Proof.
  unfold json_to_dataframe_results.
  destruct (results_meta_data j) as [meta|]; [|intros H; discriminate H].
  cbn [rbind].
  destruct (subscript j "results") as [results|]; [|intros H; discriminate H].
  cbn [rbind]. destruct (truthy results); cbn [negb].
  - destruct (from_dict results) as [r|]; [|intros H; discriminate H].
    cbn [rbind concat fold_left]. unfold setitem_list.
    destruct (negb _); [intros H; discriminate H|].
    destruct (forallb _ _); [|intros H; discriminate H].
    intros [= <-]. apply starts_with_assign_each, starts_with_append,
      starts_with_empty.
  - destruct (DataFrame_of_dict meta) as [m|]; [|intros H; discriminate H].
    cbn [rbind concat fold_left]. intros [= <-].
    apply starts_with_append, starts_with_empty.
Qed.

Lemma json_to_dataframe_columns j df j' :
  json_to_dataframe j = (Ok df, j') -> starts_with_columns df_columns df.
Proof.
  unfold json_to_dataframe.
  destruct (error_description j) as [description|e]; [|intros H; discriminate H].
  assert (Hres : (json_to_dataframe_results (Pandas.empty df_columns) j, j)
                 = (Ok df, j') -> starts_with_columns df_columns df).
  { intros [= H _]. now apply json_to_dataframe_results_columns in H. }
  assert (Herr : match del_error_fatal j with
                 | Ok formulas_json' =>
                     (rbind (subscript formulas_json' "error")
                        (fun error =>
                           rbind (DataFrame_of_list [error])
                             (fun e => concat [Pandas.empty df_columns; e])),
                      formulas_json')
                 | Raise e => (Raise e, j)
                 end = (Ok df, j') -> starts_with_columns df_columns df).
  { destruct (del_error_fatal j) as [j2|e] eqn:Hdel; [|intros H; discriminate H].
    apply del_error_fatal_ok in Hdel as (d & error & fatal & -> & _ & _ & ->).
    unfold subscript, getitem. rewrite dict_get_set_same.
    cbn. intros [= <- _]. apply starts_with_append, starts_with_empty. }
  destruct description; assumption.
Qed.

End Columns.

(** X5: every table [json_to_dataframe] returns starts with the columns of
    [df_columns], in their order.  What a response adds (record fields or
    metadata keys that are not in the list) comes after them: the list is
    the head of the column index, not a bound on it. *)
Theorem table_starts_with_df_columns :
  forall (j j' : value) (df : DataFrame),
    json_to_dataframe j = (Ok df, j') ->
    starts_with_columns df_columns df.
Proof. intros j j' df H. exact (json_to_dataframe_columns j df j' H). Qed.

Lemma table_starts_with_df_columns_witness :
  starts_with_columns df_columns
    (match fst (json_to_dataframe Sample.two_candidates_response) with
     | Ok df => df
     | Raise _ => Pandas.empty []
     end).
Proof.
  apply (table_starts_with_df_columns Sample.two_candidates_response
           Sample.two_candidates_response).
  vm_compute. reflexivity.
Defined.

Example metadata_outside_df_columns_is_a_new_column :
  columns (match fst (json_to_dataframe Sample.two_candidates_response) with
           | Ok df => df
           | Raise _ => Pandas.empty []
           end)
  = df_columns ++ ["numberResults"].
Proof. vm_compute. reflexivity. Qed.

(** ** [get_formulas], alone and followed by [json_to_dataframe] *)

Section Executor.

Variable network : world -> request -> reply.
Variable str : value -> string.
Variable self : ChemCalcFormulaFinder.

(** The request of a call, when the session has an adapter for the URL. *)
Lemma get_formulas_request mass accuracy mf_range charge w a :
  get_adapter (_session self) url = Some a ->
  exists req,
    snd (get_formulas network str self mass accuracy mf_range charge w) = w ++ [req] /\
    req_adapter req = a /\
    carries_configuration self req /\
    dict_get "monoisotopicMass" (req_params req) = Some mass /\
    dict_get "massRange" (req_params req) = Some accuracy /\
    dict_get "mfRange" (req_params req)
    = Some (VStr (str mf_range ++ "(" ++ str charge ++ ")")%string) /\
    fst (get_formulas network str self mass accuracy mf_range charge w)
    = match network w req with
      | JsonBody results =>
          store results "error" (VDict [("error_description", VNone)])
      | JSONDecodeError repr =>
          Ok (error_response false repr mass accuracy
                (VStr (str mf_range ++ "(" ++ str charge ++ ")")%string) charge)
      | RetryError repr | ConnectionError repr =>
          Ok (error_response true repr mass accuracy
                (VStr (str mf_range ++ "(" ++ str charge ++ ")")%string) charge)
      | OtherError repr => Raise (RequestException repr)
      end.
Proof.
  intros Ha. unfold get_formulas, bind, session_get_json. rewrite Ha.
  eexists.
  split; [|split; [|split; [|split; [|split; [|split]]]]].
  - match goal with |- context [network w ?r] => destruct (network w r) end;
      reflexivity.
  - reflexivity.
  - unfold carries_configuration. cbn. rewrite Ha. repeat split.
  - reflexivity.
  - reflexivity.
  - reflexivity.
  - cbn [req_url].
    match goal with |- context [network w ?r] => destruct (network w r) end;
      reflexivity.
Qed.

End Executor.

(** X6: [get_formulas] lets an exception out in two cases only (given the
    session has an adapter for the URL, as every finder's has): the call
    ended in an exception other than [RetryError], [ConnectionError] and
    [JSONDecodeError], or the body decoded to something that is not a
    dictionary.  [RetryError], [ConnectionError], [JSONDecodeError] and a
    dictionary body never make it raise.  One request goes out either way. *)
Theorem get_formulas_raises_exactly_when :
  forall (network : world -> request -> reply) (str : value -> string)
         (self : ChemCalcFormulaFinder) (mass accuracy mf_range charge : value)
         (w : world) (a : HTTPAdapter),
    get_adapter (_session self) url = Some a ->
    exists req,
      snd (get_formulas network str self mass accuracy mf_range charge w)
      = w ++ [req] /\
      ((exists e,
           fst (get_formulas network str self mass accuracy mf_range charge w)
           = Raise e) <->
       ((exists repr, network w req = OtherError repr) \/
        (exists body, network w req = JsonBody body /\ forall d, body <> VDict d))).
Proof.
  intros network str self mass accuracy mf_range charge w a Ha.
  destruct (get_formulas_request network str self mass accuracy mf_range charge w a Ha)
    as (req & Hw & _ & _ & _ & _ & _ & Hfst).
  exists req. split; [exact Hw|]. rewrite Hfst.
  destruct (network w req) as [body|s|s|s|s].
  - split.
    + intros [e He]. right. exists body. split; [reflexivity|].
      intros d ->. discriminate He.
    + intros [[s Hs] | [b [[= <-] Hb]]]; [discriminate Hs|].
      destruct body; try (eexists; reflexivity).
      exfalso. now apply (Hb entries).
  - split; [intros [e He]; discriminate He|].
    intros [[r Hr] | [b [Hb _]]]; discriminate.
  - split; [intros [e He]; discriminate He|].
    intros [[r Hr] | [b [Hb _]]]; discriminate.
  - split; [intros [e He]; discriminate He|].
    intros [[r Hr] | [b [Hb _]]]; discriminate.
  - split; [intros _; left; eauto | intros _; eexists; reflexivity].
Qed.

Lemma get_formulas_raises_exactly_when_witness :
  exists req,
    snd (get_formulas MoreSamples.later_calls_time_out Sample.str default_finder
           (VFloat 100) (VFloat 1) (VStr "C0-10") (VStr "+")
           [mkRequest url [] 5 default_adapter])
    = [mkRequest url [] 5 default_adapter] ++ [req] /\
    ((exists e,
         fst (get_formulas MoreSamples.later_calls_time_out Sample.str default_finder
                (VFloat 100) (VFloat 1) (VStr "C0-10") (VStr "+")
                [mkRequest url [] 5 default_adapter])
         = Raise e) <->
     ((exists repr,
          MoreSamples.later_calls_time_out [mkRequest url [] 5 default_adapter] req
          = OtherError repr) \/
      (exists body,
          MoreSamples.later_calls_time_out [mkRequest url [] 5 default_adapter] req
          = JsonBody body /\ forall d, body <> VDict d))).
Proof.
  apply (get_formulas_raises_exactly_when MoreSamples.later_calls_time_out
           Sample.str default_finder (VFloat 100) (VFloat 1) (VStr "C0-10")
           (VStr "+") [mkRequest url [] 5 default_adapter] default_adapter).
  reflexivity.
Defined.

(** X7: when a call ends in [RetryError], [ConnectionError] or
    [JSONDecodeError], [get_formulas] followed by [json_to_dataframe] gives
    a table of one row that echoes the query: the [repr] of the exception
    under [error_description], the mass under [em], the accuracy, the
    charge, and under [mfRange] the range with the charge appended in
    parentheses, as it was sent.  The row is the same for the three
    exceptions: the table does not tell a fatal failure from a non-fatal
    one. *)
Theorem failed_call_gives_row_echoing_query :
  forall (network : world -> request -> reply) (str : value -> string)
         (self : ChemCalcFormulaFinder) (mass accuracy mf_range charge : value)
         (w : world) (a : HTTPAdapter) (rep : reply) (repr : string),
    get_adapter (_session self) url = Some a ->
    (forall r, network w r = rep) ->
    rep = RetryError repr \/ rep = ConnectionError repr \/ rep = JSONDecodeError repr ->
    exists j j' df req,
      get_formulas network str self mass accuracy mf_range charge w
      = (Ok j, w ++ [req]) /\
      json_to_dataframe j = (Ok df, j') /\
      rows df =
      [[("error_description", VStr repr);
        ("em", mass);
        ("accuracy", accuracy);
        ("mfRange", VStr (str mf_range ++ "(" ++ str charge ++ ")")%string);
        ("charge", charge)]].
Proof.
  intros network str self mass accuracy mf_range charge w a rep repr Ha Hnet Hrep.
  unfold get_formulas, bind, session_get_json. rewrite Ha, Hnet.
  destruct Hrep as [-> | [-> | ->]]; unfold ret;
    do 4 eexists; (split; [reflexivity|]);
    unfold error_response;
    (erewrite json_to_dataframe_error;
       [|reflexivity | reflexivity | discriminate | reflexivity]);
    split; reflexivity.
Qed.

Lemma failed_call_gives_row_echoing_query_witness :
  exists j j' df req,
    get_formulas (fun _ _ => JSONDecodeError "JSONDecodeError()") Sample.str
      default_finder (VFloat 100) (VFloat 1) (VStr "C0-10") (VStr "+") []
    = (Ok j, [] ++ [req]) /\
    json_to_dataframe j = (Ok df, j') /\
    rows df =
    [[("error_description", VStr "JSONDecodeError()");
      ("em", VFloat 100);
      ("accuracy", VFloat 1);
      ("mfRange", VStr (Sample.str (VStr "C0-10") ++ "(" ++ Sample.str (VStr "+") ++ ")")%string);
      ("charge", VStr "+")]].
Proof.
  apply (failed_call_gives_row_echoing_query
           (fun _ _ => JSONDecodeError "JSONDecodeError()") Sample.str
           default_finder (VFloat 100) (VFloat 1) (VStr "C0-10") (VStr "+") []
           default_adapter (JSONDecodeError "JSONDecodeError()")
           "JSONDecodeError()").
  - reflexivity.
  - reflexivity.
  - right. right. reflexivity.
Defined.

Section CandidateTables.

(** The table of a response with candidates, written out. *)
Lemma json_to_dataframe_candidates (d error options : dict) (candidates : list dict) :
  dict_get "error" d = Some (VDict error) ->
  dict_get "error_description" error = Some VNone ->
  dict_get "options" d = Some (VDict options) ->
  dict_get "results" d = Some (VList (map VDict candidates)) ->
  candidates <> [] ->
  forallb is_scalar (values options) = true ->
  forallb is_scalar (values error) = true ->
  json_to_dataframe (VDict d) =
  (Ok (assign_each
         (dict_update
            (dict_update (dict_update [] options)
               (filter (fun kv => negb (is_container (snd kv))) d))
            error)
         (append (Pandas.empty df_columns) (of_records candidates))),
   VDict d).
Proof.
  intros Herr Hdesc Hopt Hres Hne Hso Hse.
  rewrite (json_to_dataframe_no_error d error) by assumption.
  pose proof (meta_data_scalar d error options Hso Hse) as Hs.
  unfold json_to_dataframe_results.
  rewrite (results_meta_data_eq d error options) by assumption.
  cbn [rbind]. unfold subscript, getitem. rewrite Hres. cbn [rbind].
  assert (Ht : truthy (VList (map VDict candidates)) = true)
    by (destruct candidates; [congruence | reflexivity]).
  rewrite Ht. cbn [negb from_dict]. unfold DataFrame_of_list.
  rewrite as_records_map. cbn [rbind concat fold_left].
  unfold setitem_list.
  unfold keys at 1. unfold values at 1. rewrite !length_map, Nat.eqb_refl.
  cbn [negb]. rewrite Hs. now rewrite combine_keys_values.
Qed.

End CandidateTables.

(** X8: when the body of a call decodes to a dictionary with an [options]
    dictionary of scalars and a non-empty list of candidate records,
    [get_formulas] followed by [json_to_dataframe] gives one row per
    candidate, and every row holds [None] under [error_description]:
    whatever the body itself holds under [error] or [error_description], at
    top level, in [options] or in a candidate, is overwritten by the
    no-error marker [get_formulas] stores. *)
Theorem decoded_body_gives_rows_without_error :
  forall (network : world -> request -> reply) (str : value -> string)
         (self : ChemCalcFormulaFinder) (mass accuracy mf_range charge : value)
         (w : world) (a : HTTPAdapter) (body options : dict)
         (candidates : list dict),
    get_adapter (_session self) url = Some a ->
    (forall r, network w r = JsonBody (VDict body)) ->
    dict_get "options" body = Some (VDict options) ->
    dict_get "results" body = Some (VList (map VDict candidates)) ->
    candidates <> [] ->
    forallb is_scalar (values options) = true ->
    exists j df req,
      get_formulas network str self mass accuracy mf_range charge w
      = (Ok j, w ++ [req]) /\
      subscript j "error" = Ok (VDict [("error_description", VNone)]) /\
      json_to_dataframe j = (Ok df, j) /\
      List.length (rows df) = List.length candidates /\
      forall r, In r (rows df) -> dict_get "error_description" r = Some VNone.
Proof.
  intros network str self mass accuracy mf_range charge w a body options
         candidates Ha Hnet Hopt Hres Hne Hso.
  unfold get_formulas, bind, session_get_json. rewrite Ha, Hnet.
  cbn [store]. unfold lift.
  set (d := dict_set "error" (VDict [("error_description", VNone)]) body).
  assert (Herr : dict_get "error" d = Some (VDict [("error_description", VNone)]))
    by apply dict_get_set_same.
  assert (Hopt' : dict_get "options" d = Some (VDict options))
    by (unfold d; rewrite dict_get_set_other by discriminate; exact Hopt).
  assert (Hres' : dict_get "results" d = Some (VList (map VDict candidates)))
    by (unfold d; rewrite dict_get_set_other by discriminate; exact Hres).
  do 3 eexists. split; [reflexivity|].
  split; [unfold subscript, getitem; now rewrite Herr|].
  split.
  - apply (json_to_dataframe_candidates d [("error_description", VNone)]
             options candidates); auto.
  - rewrite rows_assign_each. cbn [rows append of_records Pandas.empty app].
    split; [apply length_map|].
    intros r Hr. apply in_map_iff in Hr as [c [<- _]].
    rewrite dict_get_update
      by (apply (meta_data_keys_distinct d [("error_description", VNone)] options)).
    rewrite dict_get_update
      by (repeat constructor; simpl; tauto).
    reflexivity.
Qed.

Lemma decoded_body_gives_rows_without_error_witness :
  exists j df req,
    get_formulas MoreSamples.answers_with_own_error Sample.str default_finder
      (VFloat 100) (VFloat 1) (VStr "C0-10") (VStr "+") []
    = (Ok j, [] ++ [req]) /\
    subscript j "error" = Ok (VDict [("error_description", VNone)]) /\
    json_to_dataframe j = (Ok df, j) /\
    List.length (rows df) = 1%nat /\
    forall r, In r (rows df) -> dict_get "error_description" r = Some VNone.
Proof.
  apply (decoded_body_gives_rows_without_error
           MoreSamples.answers_with_own_error Sample.str default_finder
           (VFloat 100) (VFloat 1) (VStr "C0-10") (VStr "+") [] default_adapter
           [("error", VStr "mfRange could not be parsed");
            ("error_description", VStr "server side");
            ("results", VList [VDict [("em", VFloat 100); ("mf", VStr "C7H16")]]);
            ("options", VDict [("mfRange", VStr "C0-10(+)");
                               ("error_description", VStr "echoed")])]
           [("mfRange", VStr "C0-10(+)"); ("error_description", VStr "echoed")]
           [[("em", VFloat 100); ("mf", VStr "C7H16")]]).
  - reflexivity.
  - reflexivity.
  - reflexivity.
  - reflexivity.
  - discriminate.
  - reflexivity.
Defined.

(** ** [formulas]: the requests it sends *)

Section BatchRequests.

Variable network : world -> request -> reply.
Variable str : value -> string.
Variable self : ChemCalcFormulaFinder.

Lemma bind_lift_snd {A B : Type} (m : M A) (f : A -> result B) (w : world) :
  snd (bind m (fun x => lift (f x)) w) = snd (m w).
Proof. unfold bind, lift. now destruct (m w) as [[x|e] w1]. Qed.

(** A turn of the loop touches the network through [get_formulas] only. *)
Lemma formulas_step_snd index mz accuracy mf_range charge results w :
  snd (formulas_step network str self index mz accuracy mf_range charge results w)
  = snd (get_formulas network str self mz accuracy mf_range charge w).
Proof.
  unfold formulas_step, bind.
  destruct (get_formulas network str self mz accuracy mf_range charge w)
    as [[j|e] w1]; [|reflexivity].
  destruct (json_to_dataframe j) as [[df|e] j']; unfold lift, ret; [|reflexivity].
  destruct (setitem "search_number" (VInt index) df); [|reflexivity].
  destruct (fatal_error_flag j'); reflexivity.
Qed.

Lemma get_formulas_sent mass accuracy mf_range charge w :
  exists sent,
    snd (get_formulas network str self mass accuracy mf_range charge w) = w ++ sent /\
    Forall (carries_configuration self) sent.
Proof.
  destruct (get_adapter (_session self) url) as [a|] eqn:Ha.
  - destruct (get_formulas_request network str self mass accuracy mf_range charge w a Ha)
      as (req & Hw & _ & Hc & _).
    exists [req]. split; [exact Hw | now constructor].
  - exists []. rewrite app_nil_r. split; [|constructor].
    unfold get_formulas, bind, session_get_json. now rewrite Ha.
Qed.

Lemma formulas_loop_sent :
  forall ms strict index accs mfs chs results w,
  exists sent,
    snd (formulas_loop network str self strict index ms accs mfs chs results w)
    = w ++ sent /\
    Forall (carries_configuration self) sent.
Proof.
  induction ms as [|mz ms IH]; intros strict index accs mfs chs results w.
  - exists []. rewrite app_nil_r. split; [|constructor].
    simpl. destruct strict; [destruct accs, mfs, chs|]; reflexivity.
  - simpl.
    destruct accs as [|a accs], mfs as [|f mfs], chs as [|c chs];
      try (exists []; rewrite app_nil_r; split; [|constructor];
           destruct strict; reflexivity).
    unfold bind.
    pose proof (formulas_step_snd index mz a f c results w) as Hsnd.
    destruct (get_formulas_sent mz a f c w) as (sent1 & Hw1 & Hall1).
    rewrite Hw1 in Hsnd.
    destruct (formulas_step network str self index mz a f c results w)
      as [[[res stop]|e] w1]; simpl in Hsnd; subst w1.
    + destruct stop.
      * exists sent1. split; [reflexivity | exact Hall1].
      * destruct (IH strict (index + 1) accs mfs chs res (w ++ sent1))
          as (sent2 & Hw2 & Hall2).
        exists (sent1 ++ sent2). rewrite Hw2, app_assoc.
        split; [reflexivity | now apply Forall_app].
    + exists sent1. split; [reflexivity | exact Hall1].
Qed.

Lemma singleton_batch_snd strict mass accuracy mf_range charge w :
  snd (formulas_loop network str self strict 0
         [mass] [accuracy] [mf_range] [charge] [] w)
  = snd (get_formulas network str self mass accuracy mf_range charge w).
Proof.
  cbn [formulas_loop]. unfold bind.
  rewrite <- formulas_step_snd with (index := 0) (results := []).
  destruct (formulas_step network str self 0 mass accuracy mf_range charge [] w)
    as [[[res stop]|e] w1]; [|reflexivity].
  destruct stop, strict; reflexivity.
Qed.

End BatchRequests.

(** X9: when one of the four arguments of [formulas] cannot be iterated,
    all four are taken as one query, unchanged, also those that are
    sequences: the requests [formulas] sends are those of the single call
    [get_formulas(mass, accuracy, mf_range, charge)]. *)
Theorem non_iterable_argument_means_one_call :
  forall (network : world -> request -> reply) (str : value -> string)
         (self : ChemCalcFormulaFinder) (mass accuracy mf_range charge : value)
         (w : world),
    iter mass = None \/ iter accuracy = None \/
    iter mf_range = None \/ iter charge = None ->
    snd (formulas network str self mass accuracy mf_range charge w)
    = snd (get_formulas network str self mass accuracy mf_range charge w).
Proof.
  intros network str self mass accuracy mf_range charge w H.
  unfold formulas. rewrite bind_lift_snd.
  destruct (iter mass), (iter accuracy), (iter mf_range), (iter charge);
    try apply singleton_batch_snd.
  destruct H as [H | [H | [H | H]]]; discriminate H.
Qed.

Lemma non_iterable_argument_means_one_call_witness :
  snd (formulas Sample.always_answers Sample.str default_finder
         (VFloat 100) Sample.accuracies3 Sample.ranges3 Sample.charges3 [])
  = snd (get_formulas Sample.always_answers Sample.str default_finder
           (VFloat 100) Sample.accuracies3 Sample.ranges3 Sample.charges3 []).
Proof.
  apply (non_iterable_argument_means_one_call Sample.always_answers Sample.str
           default_finder (VFloat 100) Sample.accuracies3 Sample.ranges3
           Sample.charges3 []).
  left. reflexivity.
Defined.

(** X10: [formulas] never pairs sequences of different lengths into a
    table.  When the four arguments can be iterated (lists, but also
    strings, which yield their characters, and dictionaries, which yield
    their keys) and a table is returned, the four yielded the same number
    of items. *)
Theorem returned_table_means_same_lengths :
  forall (network : world -> request -> reply) (str : value -> string)
         (self : ChemCalcFormulaFinder) (mass accuracy mf_range charge : value)
         (ms accs mfs chs : list value) (w w' : world) (t : DataFrame),
    iter mass = Some ms ->
    iter accuracy = Some accs ->
    iter mf_range = Some mfs ->
    iter charge = Some chs ->
    formulas network str self mass accuracy mf_range charge w = (Ok t, w') ->
    same_lengths ms accs mfs chs.
Proof.
  intros network str self mass accuracy mf_range charge ms accs mfs chs w w' t
         Hm Ha Hf Hc H.
  unfold formulas in H. rewrite Hm, Ha, Hf, Hc in H. unfold bind in H.
  destruct (formulas_loop network str self true 0 ms accs mfs chs [] w)
    as [[out|e] w1] eqn:Hl; [|discriminate H].
  apply formulas_loop_ok in Hl as (new & _ & _ & Hsame & _).
  now apply Hsame.
Qed.

Lemma returned_table_means_same_lengths_witness :
  same_lengths
    [VFloat 100; VFloat 150; VFloat 200] [VFloat 1; VFloat 1; VFloat 1]
    [VStr "C"; VStr "H"; VStr "O"] [VStr "+"; VStr "+"; VStr "-"].
Proof.
  apply (returned_table_means_same_lengths Sample.always_answers Sample.str
           default_finder Sample.masses3 Sample.accuracies3 (VStr "CHO")
           (VStr "++-")
           [VFloat 100; VFloat 150; VFloat 200] [VFloat 1; VFloat 1; VFloat 1]
           [VStr "C"; VStr "H"; VStr "O"] [VStr "+"; VStr "+"; VStr "-"]
           []
           (snd (formulas Sample.always_answers Sample.str default_finder
                   Sample.masses3 Sample.accuracies3 (VStr "CHO") (VStr "++-") []))
           (match fst (formulas Sample.always_answers Sample.str default_finder
                         Sample.masses3 Sample.accuracies3 (VStr "CHO")
                         (VStr "++-") [])
            with Ok t => t | Raise _ => Pandas.empty [] end)).
  - reflexivity.
  - reflexivity.
  - reflexivity.
  - reflexivity.
  - vm_compute. reflexivity.
Defined.

(** X11: every request [formulas] sends, for any arguments and whatever the
    network answers, goes to the class URL with timeout 5, through the
    adapter the session picks for that URL, and carries the same twelve
    parameter names with the finder's settings and the literals of
    [get_formulas]; only [mfRange], [monoisotopicMass] and [massRange]
    vary.  Requests are appended to the log: earlier ones are not
    touched. *)
Theorem requests_carry_the_configuration :
  forall (network : world -> request -> reply) (str : value -> string)
         (self : ChemCalcFormulaFinder) (mass accuracy mf_range charge : value)
         (w : world),
  exists sent,
    snd (formulas network str self mass accuracy mf_range charge w) = w ++ sent /\
    Forall (carries_configuration self) sent.
Proof.
  intros network str self mass accuracy mf_range charge w.
  unfold formulas. rewrite bind_lift_snd.
  destruct (iter mass), (iter accuracy), (iter mf_range), (iter charge);
    apply formulas_loop_sent.
Qed.

(** ** [formulas]: a batch in two parts *)

Section BatchInParts.

Variable network : world -> request -> reply.
Variable str : value -> string.
Variable self : ChemCalcFormulaFinder.

Lemma formulas_loop_app :
  forall ms1 accs1 mfs1 chs1,
    List.length accs1 = List.length ms1 ->
    List.length mfs1 = List.length ms1 ->
    List.length chs1 = List.length ms1 ->
    forall strict index ms2 accs2 mfs2 chs2 results w,
      formulas_loop network str self strict index
        (ms1 ++ ms2) (accs1 ++ accs2) (mfs1 ++ mfs2) (chs1 ++ chs2) results w
      = match formulas_loop network str self false index
                ms1 accs1 mfs1 chs1 results w with
        | (Ok out, w1) =>
            formulas_loop network str self strict
              (index + Z.of_nat (List.length ms1)) ms2 accs2 mfs2 chs2 out w1
        | (Raise e, w1) => (Raise e, w1)
        end.
Proof.
  induction ms1 as [|mz ms1 IH]; intros accs1 mfs1 chs1 Ha Hf Hc
    strict index ms2 accs2 mfs2 chs2 results w.
  - destruct accs1; [|discriminate Ha].
    destruct mfs1; [|discriminate Hf].
    destruct chs1; [|discriminate Hc].
    simpl. unfold ret. now rewrite Z.add_0_r.
  - destruct accs1 as [|a accs1]; [discriminate Ha|].
    destruct mfs1 as [|f mfs1]; [discriminate Hf|].
    destruct chs1 as [|c chs1]; [discriminate Hc|].
    simpl in Ha, Hf, Hc. injection Ha as Ha. injection Hf as Hf. injection Hc as Hc.
    cbn [app formulas_loop]. unfold bind.
    destruct (formulas_step network str self index mz a f c results w)
      as [[[res stop]|e] w1] eqn:Hs; [|reflexivity].
    apply formulas_step_ok in Hs as [-> _].
    rewrite (IH accs1 mfs1 chs1 Ha Hf Hc).
    replace (index + 1 + Z.of_nat (List.length ms1))
      with (index + Z.of_nat (List.length (mz :: ms1)))
      by (cbn [List.length]; lia).
    reflexivity.
Qed.

(** The exception of a turn, after a prefix that went through, is the
    outcome of [formulas]. *)
Lemma formulas_raises_at ms1 accs1 mfs1 chs1 mz a f c ms2 accs2 mfs2 chs2
  w out w1 e w2 :
  List.length accs1 = List.length ms1 ->
  List.length mfs1 = List.length ms1 ->
  List.length chs1 = List.length ms1 ->
  formulas_loop network str self false 0 ms1 accs1 mfs1 chs1 [] w = (Ok out, w1) ->
  formulas_step network str self (Z.of_nat (List.length ms1)) mz a f c out w1
  = (Raise e, w2) ->
  formulas network str self
    (VList (ms1 ++ mz :: ms2)) (VList (accs1 ++ a :: accs2))
    (VList (mfs1 ++ f :: mfs2)) (VList (chs1 ++ c :: chs2)) w
  = (Raise e, w2).
Proof.
  intros Ha Hf Hc Hprefix Hstep.
  unfold formulas. cbn [iter]. unfold bind.
  rewrite (formulas_loop_app ms1 accs1 mfs1 chs1 Ha Hf Hc), Hprefix.
  cbn [formulas_loop]. unfold bind. rewrite Z.add_0_l, Hstep. reflexivity.
Qed.

(** The empty-results branch of [json_to_dataframe], end to end. *)
Lemma json_to_dataframe_empty_results (d error options : dict) :
  dict_get "error" d = Some (VDict error) ->
  dict_get "error_description" error = Some VNone ->
  dict_get "options" d = Some (VDict options) ->
  dict_get "results" d = Some (VList []) ->
  forallb is_scalar (values options) = true ->
  forallb is_scalar (values error) = true ->
  json_to_dataframe (VDict d) =
  (Raise (ValueError "If using all scalar values, you must pass an index"),
   VDict d).
Proof.
  intros Herr Hdesc Hopt Hres Hso Hse.
  rewrite (json_to_dataframe_no_error d error) by assumption.
  f_equal. unfold json_to_dataframe_results.
  rewrite (results_meta_data_eq d error options) by assumption.
  cbn [rbind]. unfold subscript, getitem. rewrite Hres. cbn [rbind truthy negb].
  assert (Hne : error <> []) by (intros ->; discriminate).
  pose proof (meta_data_nonempty d error options Hne) as Hm.
  pose proof (meta_data_scalar d error options Hso Hse) as Hs.
  unfold DataFrame_of_dict.
  destruct (dict_update _ error) as [|kv rest]; [congruence|].
  now rewrite Hs.
Qed.

End BatchInParts.

(** X12: the loop of [formulas] over a batch is the loop over its first
    [k] queries followed by the loop over the rest, which starts from the
    tables collected and the requests sent so far and numbers its queries
    from [k] on; an exception in the first part ends the whole.  (The loop
    never breaks, so nothing of the first part is skipped.) *)
Theorem loop_over_batch_in_two_parts :
  forall (network : world -> request -> reply) (str : value -> string)
         (self : ChemCalcFormulaFinder)
         (ms1 accs1 mfs1 chs1 ms2 accs2 mfs2 chs2 : list value)
         (strict : bool) (index : Z) (results : list DataFrame) (w : world),
    List.length accs1 = List.length ms1 ->
    List.length mfs1 = List.length ms1 ->
    List.length chs1 = List.length ms1 ->
    formulas_loop network str self strict index
      (ms1 ++ ms2) (accs1 ++ accs2) (mfs1 ++ mfs2) (chs1 ++ chs2) results w
    = match formulas_loop network str self false index
              ms1 accs1 mfs1 chs1 results w with
      | (Ok out, w1) =>
          formulas_loop network str self strict
            (index + Z.of_nat (List.length ms1)) ms2 accs2 mfs2 chs2 out w1
      | (Raise e, w1) => (Raise e, w1)
      end.
Proof.
  intros network str self ms1 accs1 mfs1 chs1 ms2 accs2 mfs2 chs2
         strict index results w Ha Hf Hc.
  now apply formulas_loop_app.
Qed.

Lemma loop_over_batch_in_two_parts_witness :
  formulas_loop Sample.second_call_fails Sample.str default_finder true 0
    ([VFloat 100] ++ [VFloat 150; VFloat 200]) ([VFloat 1] ++ [VFloat 1; VFloat 1])
    ([VStr "C0-10"] ++ [VStr "C0-10"; VStr "C0-10"])
    ([VStr "+"] ++ [VStr "+"; VStr "+"]) [] []
  = match formulas_loop Sample.second_call_fails Sample.str default_finder false 0
            [VFloat 100] [VFloat 1] [VStr "C0-10"] [VStr "+"] [] [] with
    | (Ok out, w1) =>
        formulas_loop Sample.second_call_fails Sample.str default_finder true
          (0 + Z.of_nat (List.length [VFloat 100]))
          [VFloat 150; VFloat 200] [VFloat 1; VFloat 1]
          [VStr "C0-10"; VStr "C0-10"] [VStr "+"; VStr "+"] out w1
    | (Raise e, w1) => (Raise e, w1)
    end.
Proof.
  apply (loop_over_batch_in_two_parts Sample.second_call_fails Sample.str
           default_finder [VFloat 100] [VFloat 1] [VStr "C0-10"] [VStr "+"]
           [VFloat 150; VFloat 200] [VFloat 1; VFloat 1]
           [VStr "C0-10"; VStr "C0-10"] [VStr "+"; VStr "+"] true 0 [] []);
    reflexivity.
Defined.

(** X13: an exception [get_formulas] lets out (see X6) is not turned into
    an error row.  If the loop has processed the first [k] queries of a
    batch and [get_formulas] raises for query [k], then [formulas] raises
    that exception: it returns no table, and the tables of the [k] queries
    before are lost. *)
Theorem uncaught_exception_loses_the_batch :
  forall (network : world -> request -> reply) (str : value -> string)
         (self : ChemCalcFormulaFinder)
         (ms1 accs1 mfs1 chs1 ms2 accs2 mfs2 chs2 : list value)
         (mz a f c : value) (w w1 w2 : world) (out : list DataFrame) (e : exn),
    List.length accs1 = List.length ms1 ->
    List.length mfs1 = List.length ms1 ->
    List.length chs1 = List.length ms1 ->
    formulas_loop network str self false 0 ms1 accs1 mfs1 chs1 [] w = (Ok out, w1) ->
    get_formulas network str self mz a f c w1 = (Raise e, w2) ->
    formulas network str self
      (VList (ms1 ++ mz :: ms2)) (VList (accs1 ++ a :: accs2))
      (VList (mfs1 ++ f :: mfs2)) (VList (chs1 ++ c :: chs2)) w
    = (Raise e, w2).
Proof.
  intros network str self ms1 accs1 mfs1 chs1 ms2 accs2 mfs2 chs2 mz a f c
         w w1 w2 out e Ha Hf Hc Hprefix Hget.
  apply (formulas_raises_at network str self ms1 accs1 mfs1 chs1 mz a f c
           ms2 accs2 mfs2 chs2 w out w1 e w2 Ha Hf Hc Hprefix).
  unfold formulas_step, bind. now rewrite Hget.
Qed.

Lemma uncaught_exception_loses_the_batch_witness :
  exists w2,
    formulas MoreSamples.later_calls_time_out Sample.str default_finder
      (VList ([VFloat 100] ++ VFloat 150 :: [VFloat 200]))
      (VList ([VFloat 1] ++ VFloat 1 :: [VFloat 1]))
      (VList ([VStr "C0-10"] ++ VStr "C0-10" :: [VStr "C0-10"]))
      (VList ([VStr "+"] ++ VStr "+" :: [VStr "+"])) []
    = (Raise (RequestException "ReadTimeout()"), w2) /\
    List.length w2 = 2%nat.
Proof.
  eexists. split.
  - eapply (uncaught_exception_loses_the_batch
              MoreSamples.later_calls_time_out Sample.str default_finder
              [VFloat 100] [VFloat 1] [VStr "C0-10"] [VStr "+"]
              [VFloat 200] [VFloat 1] [VStr "C0-10"] [VStr "+"]
              (VFloat 150) (VFloat 1) (VStr "C0-10") (VStr "+") []).
    + reflexivity.
    + reflexivity.
    + reflexivity.
    + vm_compute. reflexivity.
    + vm_compute. reflexivity.
  - reflexivity.
Defined.

(** X14: a query that finds no candidate ends the whole batch.  If the
    loop has processed the first [k] queries and the call for query [k]
    comes back with a body whose [results] list is empty (its [options]
    holding scalars), then [formulas] raises the [ValueError] of
    [json_to_dataframe], after the request for query [k]: no table is
    returned and the tables of the [k] queries before are lost. *)
Theorem query_without_candidates_loses_the_batch :
  forall (network : world -> request -> reply) (str : value -> string)
         (self : ChemCalcFormulaFinder)
         (ms1 accs1 mfs1 chs1 ms2 accs2 mfs2 chs2 : list value)
         (mz a f c : value) (w w1 : world) (out : list DataFrame)
         (adapter : HTTPAdapter) (body options : dict),
    List.length accs1 = List.length ms1 ->
    List.length mfs1 = List.length ms1 ->
    List.length chs1 = List.length ms1 ->
    formulas_loop network str self false 0 ms1 accs1 mfs1 chs1 [] w = (Ok out, w1) ->
    get_adapter (_session self) url = Some adapter ->
    (forall r, network w1 r = JsonBody (VDict body)) ->
    dict_get "options" body = Some (VDict options) ->
    dict_get "results" body = Some (VList []) ->
    forallb is_scalar (values options) = true ->
    exists req,
      formulas network str self
        (VList (ms1 ++ mz :: ms2)) (VList (accs1 ++ a :: accs2))
        (VList (mfs1 ++ f :: mfs2)) (VList (chs1 ++ c :: chs2)) w
      = (Raise (ValueError "If using all scalar values, you must pass an index"),
         w1 ++ [req]).
Proof.
  intros network str self ms1 accs1 mfs1 chs1 ms2 accs2 mfs2 chs2 mz a f c
         w w1 out adapter body options Ha Hf Hc Hprefix Hadapter Hnet Hopt Hres Hso.
  eexists.
  apply (formulas_raises_at network str self ms1 accs1 mfs1 chs1 mz a f c
           ms2 accs2 mfs2 chs2 w out w1 _ _ Ha Hf Hc Hprefix).
  unfold formulas_step, bind, get_formulas, bind, session_get_json.
  rewrite Hadapter, Hnet. cbn [store]. unfold lift.
  rewrite (json_to_dataframe_empty_results
             (dict_set "error" (VDict [("error_description", VNone)]) body)
             [("error_description", VNone)] options).
  - reflexivity.
  - apply dict_get_set_same.
  - reflexivity.
  - rewrite dict_get_set_other by discriminate. exact Hopt.
  - rewrite dict_get_set_other by discriminate. exact Hres.
  - exact Hso.
  - reflexivity.
Qed.

Lemma query_without_candidates_loses_the_batch_witness :
  exists req,
    formulas MoreSamples.later_calls_find_nothing Sample.str default_finder
      (VList ([VFloat 100] ++ VFloat 150 :: [VFloat 200]))
      (VList ([VFloat 1] ++ VFloat 1 :: [VFloat 1]))
      (VList ([VStr "C0-10"] ++ VStr "C0-10" :: [VStr "C0-10"]))
      (VList ([VStr "+"] ++ VStr "+" :: [VStr "+"])) []
    = (Raise (ValueError "If using all scalar values, you must pass an index"),
       snd (formulas_loop MoreSamples.later_calls_find_nothing Sample.str
              default_finder false 0
              [VFloat 100] [VFloat 1] [VStr "C0-10"] [VStr "+"] [] [])
       ++ [req]).
Proof.
  eapply (query_without_candidates_loses_the_batch
            MoreSamples.later_calls_find_nothing Sample.str default_finder
            [VFloat 100] [VFloat 1] [VStr "C0-10"] [VStr "+"]
            [VFloat 200] [VFloat 1] [VStr "C0-10"] [VStr "+"]
            (VFloat 150) (VFloat 1) (VStr "C0-10") (VStr "+") []
            _ _ default_adapter
            [("results", VList []);
             ("options", VDict [("mfRange", VStr "C0-10H0-20O0-2(+)");
                                ("massRange", VFloat 1)]);
             ("numberResults", VInt 0)]
            [("mfRange", VStr "C0-10H0-20O0-2(+)"); ("massRange", VFloat 1)]).
  - reflexivity.
  - reflexivity.
  - reflexivity.
  - vm_compute. reflexivity.
  - reflexivity.
  - intros r. reflexivity.
  - reflexivity.
  - reflexivity.
  - reflexivity.
Defined.

(** ** [formulas]: the columns of the combined table *)

Section BatchColumns.

Variable network : world -> request -> reply.
Variable str : value -> string.
Variable self : ChemCalcFormulaFinder.

Lemma formulas_loop_columns :
  forall ms strict index accs mfs chs results w out w',
    formulas_loop network str self strict index ms accs mfs chs results w
    = (Ok out, w') ->
    Forall (starts_with_columns df_columns) results ->
    Forall (starts_with_columns df_columns) out.
Proof.
  induction ms as [|mz ms IH]; intros strict index accs mfs chs results w out w' H Hres.
  - simpl in H. destruct strict; [destruct accs, mfs, chs; try discriminate H|];
      injection H as <- _; exact Hres.
  - simpl in H.
    destruct accs as [|a accs], mfs as [|f mfs], chs as [|c chs];
      try (destruct strict; [discriminate H|]; injection H as <- _; exact Hres).
    unfold bind in H.
    destruct (formulas_step network str self index mz a f c results w)
      as [[[res stop]|e] w1] eqn:Hs; [|discriminate H].
    apply formulas_step_ok in Hs
      as [-> (j & df & j' & req & _ & Hjd & -> & _ & _)].
    apply IH in H; [exact H|].
    apply Forall_app. split; [exact Hres|].
    constructor; [|constructor].
    apply starts_with_assign. exact (json_to_dataframe_columns j df j' Hjd).
Qed.

End BatchColumns.

(** X15: the table [formulas] returns starts with the columns of
    [df_columns], in their order, [search_number] among them; storing the
    search number adds no column.  Labels the responses bring beyond the
    list follow. *)
Theorem combined_table_starts_with_df_columns :
  forall (network : world -> request -> reply) (str : value -> string)
         (self : ChemCalcFormulaFinder) (mass accuracy mf_range charge : value)
         (w w' : world) (t : DataFrame),
    formulas network str self mass accuracy mf_range charge w = (Ok t, w') ->
    starts_with_columns df_columns t /\ In "search_number" (columns t).
Proof.
  intros network str self mass accuracy mf_range charge w w' t H.
  assert (Hstart : starts_with_columns df_columns t).
  { unfold formulas, bind in H.
    assert (Hloop : forall strict ms accs mfs chs,
               match formulas_loop network str self strict 0 ms accs mfs chs [] w with
               | (Ok a, w1) => lift (concat a) w1
               | (Raise e, w1) => (Raise e, w1)
               end = (Ok t, w') ->
               starts_with_columns df_columns t).
    { intros strict ms accs mfs chs Hl.
      destruct (formulas_loop network str self strict 0 ms accs mfs chs [] w)
        as [[out|e] w1] eqn:Hout; [|discriminate Hl].
      apply formulas_loop_columns in Hout; [|constructor].
      unfold lift in Hl. destruct out as [|df rest]; [discriminate Hl|].
      cbn [concat] in Hl. injection Hl as <- _.
      apply starts_with_fold_append. now inversion Hout. }
    destruct (iter mass), (iter accuracy), (iter mf_range), (iter charge);
      eapply Hloop; exact H. }
  split; [exact Hstart|].
  destruct Hstart as (extra & -> & _).
  apply in_or_app. left. unfold df_columns. simpl. tauto.
Qed.

Lemma combined_table_starts_with_df_columns_witness :
  starts_with_columns df_columns
    (match fst (formulas Sample.second_call_fails Sample.str default_finder
                  Sample.masses3 Sample.accuracies3 Sample.ranges3
                  Sample.charges3 [])
     with Ok t => t | Raise _ => Pandas.empty [] end) /\
  In "search_number"
    (columns
       (match fst (formulas Sample.second_call_fails Sample.str default_finder
                     Sample.masses3 Sample.accuracies3 Sample.ranges3
                     Sample.charges3 [])
        with Ok t => t | Raise _ => Pandas.empty [] end)).
Proof.
  apply (combined_table_starts_with_df_columns Sample.second_call_fails Sample.str
           default_finder Sample.masses3 Sample.accuracies3 Sample.ranges3
           Sample.charges3 []
           (snd (formulas Sample.second_call_fails Sample.str default_finder
                   Sample.masses3 Sample.accuracies3 Sample.ranges3
                   Sample.charges3 []))).
  vm_compute. reflexivity.
Defined.

(** ** [formulas]: iterables of different lengths *)

(** X16: with four iterable arguments that do not yield the same number of
    items, [formulas] returns no table: it raises.  It has sent at most as
    many requests as the shortest argument has items; and when the loop
    over the common prefix (the tuples a plain [zip] pairs) goes through
    without raising, it has sent exactly that many and the exception is the
    [ValueError] of [zip(..., strict=True)]. *)
Theorem mismatched_iterables_raise_after_common_prefix :
  forall (network : world -> request -> reply) (str : value -> string)
         (self : ChemCalcFormulaFinder) (mass accuracy mf_range charge : value)
         (ms accs mfs chs : list value) (w : world),
    iter mass = Some ms ->
    iter accuracy = Some accs ->
    iter mf_range = Some mfs ->
    iter charge = Some chs ->
    ~ same_lengths ms accs mfs chs ->
    exists e sent,
      formulas network str self mass accuracy mf_range charge w
      = (Raise e, w ++ sent) /\
      (List.length sent <=
       min4 (List.length ms) (List.length accs)
            (List.length mfs) (List.length chs))%nat /\
      (forall out w1,
          formulas_loop network str self false 0 ms accs mfs chs [] w = (Ok out, w1) ->
          is_zip_length_error e /\
          List.length sent =
          min4 (List.length ms) (List.length accs)
               (List.length mfs) (List.length chs)).
Proof.
  intros network str self mass accuracy mf_range charge ms accs mfs chs w
         Hm Ha Hf Hc Hmis.
  pose proof (strict_loop_on_mismatch network str self ms 0 accs mfs chs [] w Hmis)
    as Hstrict.
  unfold formulas. rewrite Hm, Ha, Hf, Hc. unfold bind.
  destruct (formulas_loop network str self false 0 ms accs mfs chs [] w)
    as [[out|e] w1] eqn:Hplain.
  - destruct Hstrict as (e & Hzip & Hs). rewrite Hs.
    destruct (formulas_loop_world _ _ _ _ _ _ _ _ _ _ _ _ _ Hs) as (sent & -> & Hle).
    exists e, sent. split; [reflexivity|]. split; [exact Hle|].
    intros out' w1' [= <- Hw]. split; [exact Hzip|].
    apply formulas_loop_ok in Hplain as (new & _ & Hlen & _ & Hw1 & _).
    rewrite length_app in Hw1. lia.
  - rewrite Hstrict.
    destruct (formulas_loop_world _ _ _ _ _ _ _ _ _ _ _ _ _ Hstrict) as (sent & -> & Hle).
    exists e, sent. split; [reflexivity|]. split; [exact Hle|].
    intros out w1' Habs. discriminate Habs.
Qed.

Lemma mismatched_iterables_raise_after_common_prefix_witness :
  exists e sent,
    formulas Sample.always_answers Sample.str default_finder
      Sample.masses3 Sample.accuracies3 (VStr "CH") Sample.charges3 []
    = (Raise e, [] ++ sent) /\
    (List.length sent <= 2)%nat /\
    (forall out w1,
        formulas_loop Sample.always_answers Sample.str default_finder false 0
          [VFloat 100; VFloat 150; VFloat 200] [VFloat 1; VFloat 1; VFloat 1]
          [VStr "C"; VStr "H"] [VStr "+"; VStr "+"; VStr "+"] [] []
        = (Ok out, w1) ->
        is_zip_length_error e /\ List.length sent = 2%nat).
Proof.
  apply (mismatched_iterables_raise_after_common_prefix
           Sample.always_answers Sample.str default_finder
           Sample.masses3 Sample.accuracies3 (VStr "CH") Sample.charges3
           [VFloat 100; VFloat 150; VFloat 200] [VFloat 1; VFloat 1; VFloat 1]
           [VStr "C"; VStr "H"] [VStr "+"; VStr "+"; VStr "+"] []).
  - reflexivity.
  - reflexivity.
  - reflexivity.
  - reflexivity.
  - intros (_ & Hs & _). discriminate Hs.
Defined.
